(** * Expense ledger tools: a shallow embedding of the two server variants

    The repository holds two variants of one tool server over a single
    SQLite table [expenses]:

    - [expense-tracker-mcp-server/main.py], the base variant (module [Base]);
    - [test-remote-mcp-server/main.py], the extended variant (module
      [Remote]), which wraps every tool in [try/except], tests optional
      fields by truthiness and adds [search_expenses] and [monthly_report].

    Every tool runs one SQL statement.  The embedding therefore has two
    layers: a small model of what the statements do to the table (module
    [Sqlite]) and, on top of it, the tools, written the way the Python
    functions are.  State is passed explicitly: a tool takes the database
    and returns its reply together with the database after the call. *)

From Stdlib Require Import ZArith List String Ascii Bool Lia.
From Stdlib Require Import Floats DecimalString Permutation Sorted.
Import ListNotations.

Local Open Scope string_scope.

(** ** Values crossing the tool boundary *)

(** Tool results are Python dicts and lists of dicts whose values are
    numbers, strings or [None]. *)
Inductive json : Type :=
| JNull
| JInt (z : Z)
| JReal (x : float)
| JStr (s : string).

Definition dict : Type := list (string * json).

Fixpoint get (k : string) (d : dict) : option json :=
  match d with
  | [] => None
  | (k', v) :: d' => if String.eqb k k' then Some v else get k d'
  end.

(** Exceptions that the modelled statements and file accesses raise. *)
Inductive exn : Type :=
| IntegrityError (msg : string)
| OperationalError (msg : string)
| OverflowError (msg : string)
| UnicodeDecodeError (msg : string)
| FileNotFoundError (filename : string).

(** [str(e)]. *)
Definition str_exn (e : exn) : string :=
  match e with
  | IntegrityError m => m
  | OperationalError m => m
  | OverflowError m => m
  | UnicodeDecodeError m => m
  | FileNotFoundError f => "[Errno 2] No such file or directory: '" ++ f ++ "'"
  end.

(** What a Python call yields: a returned value or a raised exception. *)
Inductive outcome (A : Type) : Type :=
| Return (a : A)
| Raise (e : exn).
Arguments Return {A} a.
Arguments Raise {A} e.

(** Tool arguments have the types the tool surface gives them: dates and
    the other texts are strings, the amount is a double, an id is an
    integer, and an argument that may be [None] is an [option].

    Python's [x is not None] and [bool(x)] on the optional arguments: a
    text is truthy when it is a non-empty string, a number when it differs
    from zero ([-0.0] is falsy, NaN is truthy). *)
Definition is_not_none {A : Type} (o : option A) : bool :=
  match o with Some _ => true | None => false end.

Definition truthy_text (o : option string) : bool :=
  match o with Some s => negb (String.eqb s "") | None => false end.

Definition truthy_real (o : option float) : bool :=
  match o with Some x => negb (PrimFloat.eqb x PrimFloat.zero) | None => false end.

(** ** Generic list machinery used by the statement model *)

Section OrderBy.
Context {A : Type}.
Variable leb : A -> A -> bool.

(** [ORDER BY]: a stable insertion sort for the comparison [leb]. *)
Fixpoint insert_sorted (x : A) (l : list A) : list A :=
  match l with
  | [] => [x]
  | y :: l' => if leb x y then x :: y :: l' else y :: insert_sorted x l'
  end.

Fixpoint order_by (l : list A) : list A :=
  match l with
  | [] => []
  | x :: l' => insert_sorted x (order_by l')
  end.
End OrderBy.

Section GroupBy.
Context {A K : Type}.
Variable K_eq_dec : forall a b : K, {a = b} + {a <> b}.
Variable key : A -> K.

Definition key_is (k : K) (r : A) : bool :=
  if K_eq_dec (key r) k then true else false.

(** [GROUP BY key]: one group per distinct key, holding the rows with
    that key in scan order. *)
Definition group_by (rows : list A) : list (K * list A) :=
  map (fun k => (k, filter (key_is k) rows)) (nodup K_eq_dec (map key rows)).
End GroupBy.

Definition option_string_dec (a b : option string) : {a = b} + {a <> b}.
Proof. decide equality; apply string_dec. Defined.

(** ** The [expenses] table *)

(** One row of
    [expenses(id INTEGER PRIMARY KEY AUTOINCREMENT, date TEXT NOT NULL,
     amount REAL NOT NULL, category TEXT NOT NULL,
     subcategory TEXT DEFAULT '', note TEXT DEFAULT '')].
    The two columns without [NOT NULL] may hold NULL.  Text is a string of
    bytes (UTF-8), [REAL] an IEEE double. *)
Record expense : Type := mkExpense {
  row_id : Z;
  row_date : string;
  row_amount : float;
  row_category : string;
  row_subcategory : option string;
  row_note : option string
}.

(** The database file: the table in rowid order and the counter that
    [AUTOINCREMENT] keeps for it in [sqlite_sequence]. *)
Record db : Type := mkDb {
  expenses : list expense;
  sqlite_sequence : Z
}.

(** [init_db] on a machine with no database file. *)
Definition init_db : db := {| expenses := []; sqlite_sequence := 0 |}.

Definition with_expenses (rows : list expense) (d : db) : db :=
  {| expenses := rows; sqlite_sequence := sqlite_sequence d |}.

(** [dict(zip(cols, r))] for a row of
    [SELECT id, date, amount, category, subcategory, note]. *)
Definition json_of_text (o : option string) : json :=
  match o with Some s => JStr s | None => JNull end.

Definition expense_dict (r : expense) : dict :=
  [ ("id", JInt (row_id r));
    ("date", JStr (row_date r));
    ("amount", JReal (row_amount r));
    ("category", JStr (row_category r));
    ("subcategory", json_of_text (row_subcategory r));
    ("note", json_of_text (row_note r)) ].

(** ** The statements *)

Module Sqlite.

(** The largest rowid SQLite can assign. *)
Definition max_rowid : Z := 9223372036854775807.

Definition largest_rowid (rows : list expense) : Z :=
  fold_right (fun r m => Z.max (row_id r) m) 0%Z rows.

(** The integers that can be bound as an SQLite [INTEGER]: those of 64
    bits with a sign. *)
Definition int64 (z : Z) : bool :=
  (-9223372036854775808 <=? z)%Z && (z <=? 9223372036854775807)%Z.

(** Binding a Python int outside that range fails before the statement
    runs. *)
Definition too_large : exn :=
  OverflowError "Python int too large to convert to SQLite INTEGER".

(** A double as a [REAL] column gives it back: a value that is a whole
    number is kept as an integer, which loses the sign of [-0.0]. *)
Definition real_affinity (x : float) : float :=
  if PrimFloat.eqb x PrimFloat.zero then PrimFloat.zero else x.

(** Binding a Python float and storing it in a [REAL] column: SQLite
    stores NaN as NULL. *)
Definition bind_real (x : float) : option float :=
  if PrimFloat.is_nan x then None else Some (real_affinity x).

Definition bind_opt_real (o : option float) : option float :=
  match o with Some x => bind_real x | None => None end.

Definition not_null (column : string) : exn :=
  IntegrityError ("NOT NULL constraint failed: expenses." ++ column).

(** [INSERT INTO expenses(date, amount, category, subcategory, note)
    VALUES (?,?,?,?,?)] and the cursor's [lastrowid].  With
    [AUTOINCREMENT] the new rowid is one more than the largest rowid the
    table has ever held; when that was the largest possible one the
    insert fails.  A NULL in a [NOT NULL] column aborts the statement and
    leaves the database as it was. *)
Definition insert (date : option string) (amount : option float)
    (category subcategory note : option string) (d : db)
  : outcome Z * db :=
  let prev := Z.max (sqlite_sequence d) (largest_rowid (expenses d)) in
  if (max_rowid <=? prev)%Z then
    (Raise (OperationalError "database or disk is full"), d)
  else
    match date with
    | None => (Raise (not_null "date"), d)
    | Some date' =>
      match bind_opt_real amount with
      | None => (Raise (not_null "amount"), d)
      | Some amount' =>
        match category with
        | None => (Raise (not_null "category"), d)
        | Some category' =>
          let rowid := (prev + 1)%Z in
          (Return rowid,
           {| expenses :=
                (expenses d ++
                 [mkExpense rowid date' amount' category' subcategory note])%list;
              sqlite_sequence := rowid |})
        end
      end
    end.

(** One [column = ?] of an [UPDATE ... SET] list with its bound
    parameter. *)
Inductive assignment : Type :=
| SetDate (v : string)
| SetAmount (v : float)
| SetCategory (v : string)
| SetSubcategory (v : string)
| SetNote (v : string).

(** The row after one assignment; [inl column] when it would put NULL in
    a [NOT NULL] column. *)
Definition assign (a : assignment) (r : expense) : string + expense :=
  match a with
  | SetDate v =>
      inr (mkExpense (row_id r) v (row_amount r) (row_category r)
             (row_subcategory r) (row_note r))
  | SetAmount v =>
      match bind_real v with
      | None => inl "amount"
      | Some v' =>
          inr (mkExpense (row_id r) (row_date r) v' (row_category r)
                 (row_subcategory r) (row_note r))
      end
  | SetCategory v =>
      inr (mkExpense (row_id r) (row_date r) (row_amount r) v
             (row_subcategory r) (row_note r))
  | SetSubcategory v =>
      inr (mkExpense (row_id r) (row_date r) (row_amount r)
             (row_category r) (Some v) (row_note r))
  | SetNote v =>
      inr (mkExpense (row_id r) (row_date r) (row_amount r)
             (row_category r) (row_subcategory r) (Some v))
  end.

Fixpoint assign_all (fields : list assignment) (r : expense)
  : string + expense :=
  match fields with
  | [] => inr r
  | a :: fields' =>
      match assign a r with
      | inl c => inl c
      | inr r' => assign_all fields' r'
      end
  end.

(** The rows after [UPDATE expenses SET fields WHERE id = ?] and the
    number of rows changed, or the column of a constraint failure. *)
Fixpoint update_rows (fields : list assignment) (expense_id : Z)
    (rows : list expense) : string + (list expense * Z) :=
  match rows with
  | [] => inr ([], 0%Z)
  | r :: rows' =>
      if (row_id r =? expense_id)%Z then
        match assign_all fields r with
        | inl c => inl c
        | inr r' =>
            match update_rows fields expense_id rows' with
            | inl c => inl c
            | inr (out, n) => inr (r' :: out, (n + 1)%Z)
            end
        end
      else
        match update_rows fields expense_id rows' with
        | inl c => inl c
        | inr (out, n) => inr (r :: out, n)
        end
  end.

(** [UPDATE expenses SET ... WHERE id = ?] and the cursor's [rowcount].
    The parameters are bound first, the id last. *)
Definition update (fields : list assignment) (expense_id : Z) (d : db)
  : outcome Z * db :=
  if negb (int64 expense_id) then (Raise too_large, d)
  else
    match update_rows fields expense_id (expenses d) with
    | inl c => (Raise (not_null c), d)
    | inr (rows, n) => (Return n, with_expenses rows d)
    end.

(** [DELETE FROM expenses WHERE id = ?] and the cursor's [rowcount].  The
    [sqlite_sequence] counter is not touched. *)
Definition delete (expense_id : Z) (d : db) : outcome Z * db :=
  if negb (int64 expense_id) then (Raise too_large, d)
  else
    (Return
       (Z.of_nat (List.length (filter (fun r => (row_id r =? expense_id)%Z)
                                 (expenses d)))),
     with_expenses
       (filter (fun r => negb (row_id r =? expense_id)%Z) (expenses d)) d).

(** [date BETWEEN ? AND ?] on text: bytewise comparison, both ends
    included. *)
Definition between (start_date end_date : string) (r : expense) : bool :=
  String.leb start_date (row_date r) && String.leb (row_date r) end_date.

(** [ORDER BY id ASC]. *)
Definition id_asc (a b : expense) : bool := (row_id a <=? row_id b)%Z.

(** [ORDER BY date DESC, id DESC]. *)
Definition date_desc_id_desc (a b : expense) : bool :=
  match String.compare (row_date b) (row_date a) with
  | Lt => true
  | Gt => false
  | Eq => (row_id b <=? row_id a)%Z
  end.

(** [ORDER BY date DESC]. *)
Definition date_desc (a b : expense) : bool :=
  String.leb (row_date b) (row_date a).

End Sqlite.

(** ** Engine functions the queries call

    [LIKE] is modelled in full, [strftime] on calendar dates.  [SUM] over
    doubles depends on the SQLite build that is linked, so the tools that
    use it take it as a parameter and every result about those tools holds
    for all of them. *)

(** The value of a byte. *)
Definition byte (c : ascii) : Z := Z.of_nat (nat_of_ascii c).

Definition is_continuation (c : ascii) : bool :=
  let n := nat_of_ascii c in (128 <=? n)%nat && (n <? 192)%nat.

Definition is_lead (c : ascii) : bool := (192 <=? nat_of_ascii c)%nat.

(** SQLite's table [sqlite3Utf8Trans1]: the payload bits of a first byte
    of 0xC0 or more. *)
Definition utf8_trans1 (n : Z) : Z :=
  if (n <? 224)%Z then (n - 192)%Z
  else if (n <? 240)%Z then (n - 224)%Z
  else if (n <? 248)%Z then (n - 240)%Z
  else if (n <? 252)%Z then (n - 248)%Z
  else if (n <? 254)%Z then (n - 252)%Z
  else 0%Z.

(** One more continuation byte shifted into a 32-bit accumulator. *)
Definition shift_in (c n : Z) : Z :=
  ((c * 64 + n mod 64) mod 4294967296)%Z.

(** The character a multi-byte sequence stands for: what is below 0x80, a
    surrogate, U+FFFE or U+FFFF is read as U+FFFD. *)
Definition finish (c : Z) : Z :=
  if (c <? 128)%Z || (Z.land c 4294965248 =? 55296)%Z
     || (Z.land c 4294967294 =? 65534)%Z
  then 65533%Z else c.

(** A text as [LIKE] reads it, character by character ([sqlite3Utf8Read]):
    the text ends at its first NUL byte; a byte of 0xC0 or more opens a
    character that takes the continuation bytes following it; any other
    byte is a character by itself.  [open] is the character being read. *)
Fixpoint read_chars (open : option Z) (s : string) : list Z :=
  match s with
  | EmptyString =>
      match open with
      | Some c => [finish c]
      | None => []
      end
  | String b s' =>
      if (byte b =? 0)%Z then
        match open with
        | Some c => [finish c]
        | None => []
        end
      else
        match open with
        | Some c =>
            if is_continuation b then
              read_chars (Some (shift_in c (byte b))) s'
            else if is_lead b then
              finish c :: read_chars (Some (utf8_trans1 (byte b))) s'
            else
              finish c :: byte b :: read_chars None s'
        | None =>
            if is_lead b then read_chars (Some (utf8_trans1 (byte b))) s'
            else byte b :: read_chars None s'
        end
  end.

Definition text_chars (s : string) : list Z := read_chars None s.

(** [LIKE] folds the case of ASCII letters only. *)
Definition fold_case (c : Z) : Z :=
  if (65 <=? c)%Z && (c <=? 90)%Z then (c + 32)%Z else c.

Definition same_char (c c2 : Z) : bool :=
  (c =? c2)%Z
  || ((c <? 128)%Z && (c2 <? 128)%Z && (fold_case c =? fold_case c2)%Z).

(** [patternCompare] for [LIKE] without [ESCAPE]: [%] (37) matches any run
    of characters, [_] (95) any one character, any other character itself
    up to ASCII case. *)
Fixpoint like_chars (pattern text : list Z) {struct pattern} : bool :=
  match pattern with
  | [] =>
      match text with [] => true | _ :: _ => false end
  | c :: pattern' =>
      if (c =? 37)%Z then
        (fix any_run (t : list Z) : bool :=
           like_chars pattern' t ||
           match t with
           | [] => false
           | _ :: t' => any_run t'
           end) text
      else if (c =? 95)%Z then
        match text with
        | [] => false
        | _ :: text' => like_chars pattern' text'
        end
      else
        match text with
        | [] => false
        | b :: text' => same_char c b && like_chars pattern' text'
        end
  end.

Definition like_match (pattern text : string) : bool :=
  like_chars (text_chars pattern) (text_chars text).

(** The longest pattern, in bytes, that [LIKE] accepts. *)
Definition like_pattern_limit : Z := 50000.

(** [column LIKE ?] on a nullable column.  A pattern over the limit is an
    error whatever the column holds; on NULL the answer is NULL, which
    does not satisfy [WHERE]. *)
Definition like (pattern : string) (column : option string) : outcome bool :=
  if (like_pattern_limit <? Z.of_nat (String.length pattern))%Z then
    Raise (OperationalError "LIKE or GLOB pattern too complex")
  else
    match column with
    | Some text => Return (like_match pattern text)
    | None => Return false
    end.

(** [WHERE clause] over the rows in scan order: the first error ends the
    statement. *)
Fixpoint select_where (clause : expense -> outcome bool)
    (rows : list expense) : outcome (list expense) :=
  match rows with
  | [] => Return []
  | r :: rows' =>
      match clause r with
      | Raise e => Raise e
      | Return keep =>
          match select_where clause rows' with
          | Raise e => Raise e
          | Return rest => Return (if keep then r :: rest else rest)
          end
      end
  end.

(** Dates that every SQLite reads the same way: [YYYY-MM-DD] with a month
    and a day of the calendar. *)
Definition digit (c : ascii) : option nat :=
  let n := nat_of_ascii c in
  if (48 <=? n)%nat && (n <=? 57)%nat then Some (n - 48)%nat else None.

Definition leap_year (y : nat) : bool :=
  (y mod 4 =? 0)%nat && (negb (y mod 100 =? 0)%nat || (y mod 400 =? 0)%nat).

Definition days_in_month (y m : nat) : nat :=
  match m with
  | 2 => if leap_year y then 29 else 28
  | 4 | 6 | 9 | 11 => 30
  | _ => 31
  end%nat.

Definition calendar_date (s : string) : option (nat * nat * nat) :=
  match s with
  | String y1 (String y2 (String y3 (String y4 (String h1
      (String m1 (String m2 (String h2 (String d1 (String d2
         EmptyString))))))))) =>
      match digit y1, digit y2, digit y3, digit y4,
            digit m1, digit m2, digit d1, digit d2 with
      | Some a, Some b, Some c, Some e, Some f, Some g, Some h, Some i =>
          let y := (1000 * a + 100 * b + 10 * c + e)%nat in
          let m := (10 * f + g)%nat in
          let d := (10 * h + i)%nat in
          if Ascii.eqb h1 "-" && Ascii.eqb h2 "-"
             && (1 <=? m)%nat && (m <=? 12)%nat
             && (1 <=? d)%nat && (d <=? days_in_month y m)%nat
          then Some (y, m, d) else None
      | _, _, _, _, _, _, _, _ => None
      end
  | _ => None
  end.

(** [strftime(format, date)] for the formats [%Y] and [%m] on a calendar
    date: the four digits of the year, the two digits of the month.  What
    it yields on any other text or format, which depends on the clock and
    on the SQLite build, is left to [other]. *)
Definition strftime (other : string -> string -> option string)
    (format date : string) : option string :=
  match calendar_date date with
  | Some _ =>
      if String.eqb format "%Y" then Some (substring 0 4 date)
      else if String.eqb format "%m" then Some (substring 5 2 date)
      else other format date
  | None => other format date
  end.

(** A double handed back to Python: NaN comes out of SQLite as NULL. *)
Definition json_of_real (x : float) : json :=
  if PrimFloat.is_nan x then JNull else JReal x.

(** [ORDER BY] on doubles, NULL before every number. *)
Definition real_leb (x y : float) : bool :=
  if PrimFloat.is_nan x then true
  else if PrimFloat.is_nan y then false
  else PrimFloat.leb x y.

(** [ORDER BY] on nullable text, NULL before every string. *)
Definition text_leb (x y : option string) : bool :=
  match x, y with
  | None, _ => true
  | Some _, None => false
  | Some a, Some b => String.leb a b
  end.

(** ** The categories document *)

(** The file at [CATEGORIES_PATH]: the bytes it holds, or [None] when there
    is no such file. *)
Definition document : Type := option string.

Definition CATEGORIES_PATH : string := "categories.json".

(** [os.path.exists(CATEGORIES_PATH)]. *)
Definition path_exists (f : document) : bool :=
  match f with Some _ => true | None => false end.

(** Well-formed UTF-8, as Python's strict decoder accepts it.  [pending]
    holds, for each byte still owed to the character being read, the range
    it must lie in. *)
Definition first_byte (n : nat) : option (list (nat * nat)) :=
  if (n <? 128)%nat then Some []
  else if (n <? 194)%nat then None
  else if (n <? 224)%nat then Some [(128, 191)]
  else if (n =? 224)%nat then Some [(160, 191); (128, 191)]
  else if (n =? 237)%nat then Some [(128, 159); (128, 191)]
  else if (n <? 240)%nat then Some [(128, 191); (128, 191)]
  else if (n =? 240)%nat then Some [(144, 191); (128, 191); (128, 191)]
  else if (n <? 244)%nat then Some [(128, 191); (128, 191); (128, 191)]
  else if (n =? 244)%nat then Some [(128, 143); (128, 191); (128, 191)]
  else None.

Fixpoint utf8_valid (pending : list (nat * nat)) (s : string) : bool :=
  match s with
  | EmptyString =>
      match pending with [] => true | _ :: _ => false end
  | String b s' =>
      let n := nat_of_ascii b in
      match pending with
      | (lo, hi) :: pending' =>
          (lo <=? n)%nat && (n <=? hi)%nat && utf8_valid pending' s'
      | [] =>
          match first_byte n with
          | Some pending' => utf8_valid pending' s'
          | None => false
          end
      end
  end.

(** Reading in text mode: [CR LF] and a lone [CR] come back as [LF]. *)
Fixpoint universal_newlines (s : string) : string :=
  match s with
  | EmptyString => EmptyString
  | String c s' =>
      if Ascii.eqb c "013" then
        match s' with
        | String c' s'' =>
            if Ascii.eqb c' "010" then String "010" (universal_newlines s'')
            else String "010" (universal_newlines s')
        | EmptyString => String "010" EmptyString
        end
      else String c (universal_newlines s')
  end.

(** [open(CATEGORIES_PATH, "r", encoding="utf-8").read()].  The text read
    is given by its UTF-8 bytes.  [decode_message] is the [str] of the
    [UnicodeDecodeError] that bytes which are no UTF-8 raise; it names the
    codec, the byte and its position, in printable ASCII without double
    quote or backslash. *)
Definition read_text (decode_message : string -> string) (f : document)
  : outcome string :=
  match f with
  | Some bytes =>
      if utf8_valid [] bytes then Return (universal_newlines bytes)
      else Raise (UnicodeDecodeError (decode_message bytes))
  | None => Raise (FileNotFoundError CATEGORIES_PATH)
  end.

(** Where the server runs: writing in text mode puts [os.linesep] for every
    [LF]. *)
Inductive platform : Type :=
| Posix
| Windows.

Fixpoint with_linesep (os : platform) (s : string) : string :=
  match s with
  | EmptyString => EmptyString
  | String c s' =>
      if Ascii.eqb c "010" then
        match os with
        | Posix => String "010" (with_linesep os s')
        | Windows => String "013" (String "010" (with_linesep os s'))
        end
      else String c (with_linesep os s')
  end.

(** Writing [text] through [open(CATEGORIES_PATH, "w", encoding="utf-8")]. *)
Definition write_text (os : platform) (text : string) (f : document)
  : document :=
  Some (with_linesep os text).

Definition quoted (s : string) : string :=
  String "034" (s ++ String "034" EmptyString).

Definition newline : string := String "010" EmptyString.

Fixpoint join (sep : string) (l : list string) : string :=
  match l with
  | [] => ""
  | [s] => s
  | s :: l' => s ++ sep ++ join sep l'
  end.

(** [json.dump({"categories": labels}, f, indent=2)] for labels that need
    no escaping. *)
Definition json_dump (labels : list string) : string :=
  "{" ++ newline ++
  "  " ++ quoted "categories" ++ ": [" ++ newline ++
  join ("," ++ newline) (map (fun l => "    " ++ quoted l) labels) ++ newline ++
  "  ]" ++ newline ++
  "}".

(** ** The base variant: [expense-tracker-mcp-server/main.py] *)

Module Base.
Import Sqlite.

Definition add_expense (date : option string) (amount : option float)
    (category subcategory note : option string) (d : db)
  : outcome dict * db :=
  match insert date amount category subcategory note d with
  | (Return lastrowid, d') =>
      (Return [("status", JStr "ok"); ("id", JInt lastrowid)], d')
  | (Raise e, d') => (Raise e, d')
  end.

Definition list_expenses (start_date end_date : string) (d : db)
  : list dict :=
  map expense_dict
    (order_by id_asc (filter (between start_date end_date) (expenses d))).

(** [if category: query += " AND category = ?"]. *)
Definition category_clause (category : option string) (r : expense) : bool :=
  match category with
  | Some c =>
      if truthy_text category then String.eqb (row_category r) c else true
  | None => true
  end.

Section Aggregates.
Variable SUM : list float -> float.

Definition summary_dict (g : string * list expense) : dict :=
  [ ("category", JStr (fst g));
    ("total_amount", json_of_real (SUM (map row_amount (snd g)))) ].

(** [ORDER BY category ASC]. *)
Definition category_asc (a b : string * list expense) : bool :=
  String.leb (fst a) (fst b).

Definition summarize (start_date end_date : string)
    (category : option string) (d : db) : list dict :=
  let matching :=
    filter (fun r => between start_date end_date r && category_clause category r)
      (expenses d) in
  map summary_dict
    (order_by category_asc (group_by string_dec row_category matching)).
End Aggregates.

(** [if x is not None: fields.append(...); params.append(x)]. *)
Definition set_if_given {A : Type} (mk : A -> assignment) (x : option A)
    (fields : list assignment) : list assignment :=
  match x with
  | Some v => if is_not_none x then (fields ++ [mk v])%list else fields
  | None => fields
  end.

Definition edit_expense (expense_id : Z) (date : option string)
    (amount : option float) (category subcategory note : option string)
    (d : db) : outcome dict * db :=
  let fields := [] in
  let fields := set_if_given SetDate date fields in
  let fields := set_if_given SetAmount amount fields in
  let fields := set_if_given SetCategory category fields in
  let fields := set_if_given SetSubcategory subcategory fields in
  let fields := set_if_given SetNote note fields in
  match fields with
  | [] =>
      (Return [("status", JStr "error");
               ("message", JStr "No fields provided to update")], d)
  | _ :: _ =>
      match update fields expense_id d with
      | (Return rowcount, d') =>
          (Return [("status", JStr "ok"); ("rows_updated", JInt rowcount)], d')
      | (Raise e, d') => (Raise e, d')
      end
  end.

Definition delete_expense (expense_id : Z) (d : db) : outcome dict * db :=
  match delete expense_id d with
  | (Return rowcount, d') =>
      (Return [("status", JStr "ok"); ("rows_deleted", JInt rowcount)], d')
  | (Raise e, d') => (Raise e, d')
  end.

(** The resource: the file is opened for reading and nothing else. *)
Definition categories (decode_message : string -> string) (f : document)
  : outcome string * document :=
  (read_text decode_message f, f).

(** The tools that write, as calls of a session. *)
Inductive call : Type :=
| AddExpense (date : option string) (amount : option float)
    (category subcategory note : option string)
| EditExpense (expense_id : Z) (date : option string) (amount : option float)
    (category subcategory note : option string)
| DeleteExpense (expense_id : Z).

Definition step (c : call) (d : db) : outcome dict * db :=
  match c with
  | AddExpense date amount category subcategory note =>
      add_expense date amount category subcategory note d
  | EditExpense expense_id date amount category subcategory note =>
      edit_expense expense_id date amount category subcategory note d
  | DeleteExpense expense_id => delete_expense expense_id d
  end.

End Base.

(** ** The extended variant: [test-remote-mcp-server/main.py]

    Every tool body sits in [try: ... except Exception as e: return
    {"status": "error", "message": str(e)}], so no tool raises. *)

Module Remote.
Import Sqlite.

Definition error_reply (e : exn) : dict :=
  [("status", JStr "error"); ("message", JStr (str_exn e))].

Definition add_expense (date : option string) (amount : option float)
    (category subcategory note : option string) (d : db) : dict * db :=
  match insert date amount category subcategory note d with
  | (Return expense_id, d') =>
      ([("status", JStr "ok"); ("id", JInt expense_id)], d')
  | (Raise e, d') => (error_reply e, d')
  end.

Definition list_expenses (start_date end_date : string) (d : db)
  : list dict :=
  map expense_dict
    (order_by date_desc_id_desc
       (filter (between start_date end_date) (expenses d))).

(** [if category: query += " AND category = ?"]. *)
Definition category_clause (category : option string) (r : expense) : bool :=
  match category with
  | Some c =>
      if truthy_text category then String.eqb (row_category r) c else true
  | None => true
  end.

(** [if x: fields.append(...); params.append(x)]. *)
Definition set_if_truthy {A : Type} (truthy : option A -> bool)
    (mk : A -> assignment) (x : option A) (fields : list assignment)
  : list assignment :=
  match x with
  | Some v => if truthy x then (fields ++ [mk v])%list else fields
  | None => fields
  end.

Definition edit_expense (expense_id : Z) (date : option string)
    (amount : option float) (category subcategory note : option string)
    (d : db) : dict * db :=
  let fields := [] in
  let fields := set_if_truthy truthy_text SetDate date fields in
  let fields := set_if_truthy truthy_real SetAmount amount fields in
  let fields := set_if_truthy truthy_text SetCategory category fields in
  let fields := set_if_truthy truthy_text SetSubcategory subcategory fields in
  let fields := set_if_truthy truthy_text SetNote note fields in
  match fields with
  | [] =>
      ([("status", JStr "error"); ("message", JStr "No fields provided")], d)
  | _ :: _ =>
      match update fields expense_id d with
      | (Return rowcount, d') =>
          ([("status", JStr "ok"); ("rows_updated", JInt rowcount)], d')
      | (Raise e, d') => (error_reply e, d')
      end
  end.

Definition delete_expense (expense_id : Z) (d : db) : dict * db :=
  match delete expense_id d with
  | (Return rowcount, d') =>
      ([("status", JStr "ok"); ("rows_deleted", JInt rowcount)], d')
  | (Raise e, d') => (error_reply e, d')
  end.

(** [WHERE note LIKE ? OR category LIKE ? OR subcategory LIKE ?], each
    parameter being [f"%{keyword}%"]. *)
Definition keyword_clause (keyword : string) (r : expense) : outcome bool :=
  let pattern := "%" ++ keyword ++ "%" in
  match like pattern (row_note r) with
  | Raise e => Raise e
  | Return in_note =>
      match like pattern (Some (row_category r)) with
      | Raise e => Raise e
      | Return in_category =>
          match like pattern (row_subcategory r) with
          | Raise e => Raise e
          | Return in_subcategory =>
              Return (in_note || in_category || in_subcategory)
          end
      end
  end.

(** What [search_expenses] returns: the list of records, or the error dict
    of its [except] branch. *)
Inductive answer : Type :=
| Records (rows : list dict)
| Failure (reply : dict).

Definition search_expenses (keyword : string) (d : db) : answer :=
  match select_where (keyword_clause keyword) (expenses d) with
  | Return rows => Records (map expense_dict (order_by date_desc rows))
  | Raise e => Failure (error_reply e)
  end.

(** The [year] argument of [monthly_report]: an integer or a string. *)
Inductive year_arg : Type :=
| YearInt (n : Z)
| YearStr (s : string).

(** [str(year)]. *)
Definition str (year : year_arg) : string :=
  match year with
  | YearInt n => NilZero.string_of_int (Z.to_int n)
  | YearStr s => s
  end.

Section Aggregates.
Variable SUM : list float -> float.
(** [strftime format date]; NULL when [date] is no time value. *)
Variable strftime : string -> string -> option string.

Definition total (rows : list expense) : float := SUM (map row_amount rows).

Definition summary_dict (g : string * list expense) : dict :=
  [ ("category", JStr (fst g));
    ("total_amount", json_of_real (total (snd g)));
    ("count", JInt (Z.of_nat (List.length (snd g)))) ].

(** [ORDER BY total_amount DESC]. *)
Definition total_desc {K : Type} (a b : K * list expense) : bool :=
  real_leb (total (snd b)) (total (snd a)).

Definition summarize (start_date end_date : string)
    (category : option string) (d : db) : list dict :=
  let matching :=
    filter (fun r => between start_date end_date r && category_clause category r)
      (expenses d) in
  map summary_dict
    (order_by total_desc (group_by string_dec row_category matching)).

(** [strftime('%m', date) AS month]. *)
Definition month (r : expense) : option string := strftime "%m" (row_date r).

(** [WHERE strftime('%Y', date) = ?]. *)
Definition year_clause (year : string) (r : expense) : bool :=
  match strftime "%Y" (row_date r) with
  | Some y => String.eqb y year
  | None => false
  end.

Definition month_dict (g : option string * list expense) : dict :=
  [ ("month", json_of_text (fst g));
    ("total_amount", json_of_real (total (snd g)));
    ("count", JInt (Z.of_nat (List.length (snd g)))) ].

(** [ORDER BY month ASC]. *)
Definition month_asc (a b : option string * list expense) : bool :=
  text_leb (fst a) (fst b).

Definition monthly_report (year : year_arg) (d : db) : list dict :=
  let matching := filter (year_clause (str year)) (expenses d) in
  map month_dict
    (order_by month_asc (group_by option_string_dec month matching)).
End Aggregates.

Definition default_categories : list string :=
  [ "Food & Dining"; "Transportation"; "Shopping"; "Entertainment";
    "Bills & Utilities"; "Healthcare"; "Travel"; "Education";
    "Business"; "Other" ].

(** [json.dumps({"error": message})] for a message that needs no
    escaping. *)
Definition error_document (message : string) : string :=
  "{" ++ quoted "error" ++ ": " ++ quoted message ++ "}".

(** The resource: the default document is written when there is no file,
    then the file is read; what the read raises becomes the error
    document.  Faults of the file system itself are outside this model. *)
Definition categories (os : platform) (decode_message : string -> string)
    (f : document) : string * document :=
  let f' :=
    if negb (path_exists f)
    then write_text os (json_dump default_categories) f
    else f in
  match read_text decode_message f' with
  | Return text => (text, f')
  | Raise e => (error_document (str_exn e), f')
  end.

(** The tools that write, as calls of a session. *)
Inductive call : Type :=
| AddExpense (date : option string) (amount : option float)
    (category subcategory note : option string)
| EditExpense (expense_id : Z) (date : option string) (amount : option float)
    (category subcategory note : option string)
| DeleteExpense (expense_id : Z).

Definition step (c : call) (d : db) : dict * db :=
  match c with
  | AddExpense date amount category subcategory note =>
      add_expense date amount category subcategory note d
  | EditExpense expense_id date amount category subcategory note =>
      edit_expense expense_id date amount category subcategory note d
  | DeleteExpense expense_id => delete_expense expense_id d
  end.

End Remote.

(** ** Sessions and replies *)

Section Session.
Context {C R : Type}.
Variable step : C -> db -> R * db.

(** A session: calls served one after the other, each on the database the
    previous one left. *)
Fixpoint run (calls : list C) (d : db) : list R * db :=
  match calls with
  | [] => ([], d)
  | c :: calls' =>
      let (reply, d') := step c d in
      let (replies, d'') := run calls' d' in
      (reply :: replies, d'')
  end.
End Session.

(** The id a reply of [add_expense] reports, when it reports one. *)
Definition created_id (reply : dict) : option Z :=
  match get "status" reply, get "id" reply with
  | Some (JStr s), Some (JInt i) => if String.eqb s "ok" then Some i else None
  | _, _ => None
  end.

Definition returned_id (reply : outcome dict) : option Z :=
  match reply with
  | Return r => created_id r
  | Raise _ => None
  end.

(** The ids reported, in call order. *)
Fixpoint collect {A : Type} (f : A -> option Z) (l : list A) : list Z :=
  match l with
  | [] => []
  | a :: l' =>
      match f a with
      | Some i => i :: collect f l'
      | None => collect f l'
      end
  end.

(** The primary key: no two rows share an id. *)
Definition unique_ids (d : db) : Prop := NoDup (map row_id (expenses d)).

(** ** Vocabulary of the statements *)


(** The row with its category replaced and nothing else touched. *)
Definition with_category (category : string) (r : expense) : expense :=
  mkExpense (row_id r) (row_date r) (row_amount r) category
    (row_subcategory r) (row_note r).

(** [b] may follow [a] under [ORDER BY date DESC, id DESC]. *)
Definition later_first (a b : expense) : Prop :=
  String.compare (row_date b) (row_date a) = Lt
  \/ (row_date a = row_date b /\ (row_id b <= row_id a)%Z).

(** The rows a summary is asked for: dated within the closed range and, when
    a category filter applies, of that category. *)
Definition selected (start_date end_date : string) (filter_on : option string)
    (r : expense) : bool :=
  String.leb start_date (row_date r) && String.leb (row_date r) end_date &&
  match filter_on with
  | Some c => String.eqb (row_category r) c
  | None => true
  end.

(** The filter that [summarize] applies: a category that is absent or the
    empty string filters nothing. *)
Definition applied_filter (category : option string) : option string :=
  match category with
  | Some c => if String.eqb c "" then None else Some c
  | None => None
  end.

(** [groups] splits [rows] by category: one group per category that occurs
    in [rows], each holding exactly the rows of its category. *)
Definition grouped_by_category (rows : list expense)
    (groups : list (string * list expense)) : Prop :=
  NoDup (map fst groups)
  /\ (forall c, In c (map fst groups) <->
                exists r, In r rows /\ row_category r = c)
  /\ (forall g, In g groups ->
        snd g = filter (fun r => String.eqb (row_category r) (fst g)) rows).

(** Every stored id is at most the [sqlite_sequence] counter, which is how
    [AUTOINCREMENT] keeps it. *)
Definition sequence_tracks (d : db) : Prop :=
  forall r, In r (expenses d) -> (row_id r <= sqlite_sequence d)%Z.

Definition id_of (o : outcome Z) : option Z :=
  match o with Return i => Some i | Raise _ => None end.

(** What one call may do to the ids: [created] is the id it reports. *)
Definition advances (created : option Z) (d d' : db) : Prop :=
  (sqlite_sequence d <= sqlite_sequence d')%Z
  /\ (sequence_tracks d -> sequence_tracks d')
  /\ (forall r, In r (expenses d') ->
        In (row_id r) (map row_id (expenses d)) \/ created = Some (row_id r))
  /\ (forall i, created = Some i ->
        (sqlite_sequence d < i <= sqlite_sequence d')%Z).

(** A character that is no wildcard of [LIKE]. *)
Definition plain_char (c : Z) : bool :=
  negb (c =? 37)%Z && negb (c =? 95)%Z.

(** A keyword free of [%] and [_]. *)
Definition plain (s : string) : bool := forallb plain_char (text_chars s).

(** A text without NUL byte. *)
Fixpoint nul_free (s : string) : bool :=
  match s with
  | EmptyString => true
  | String c s' => negb (byte c =? 0)%Z && nul_free s'
  end.

(** Two characters that are equal or the two cases of one ASCII letter. *)
Definition same_letter (p c : Z) : Prop :=
  (p = c \/ (65 <= p <= 90 /\ c = p + 32)
   \/ (97 <= p <= 122 /\ c = p - 32))%Z.

(** What a pattern stands for, character by character: [%] (37) for any
    run of characters, [_] (95) for any one character, and any other
    character for itself, an ASCII letter also for its other case. *)
Inductive wildcard_match : list Z -> list Z -> Prop :=
| match_end : wildcard_match [] []
| match_any_run (pattern run text : list Z) :
    wildcard_match pattern text ->
    wildcard_match (37%Z :: pattern) (run ++ text)%list
| match_any_one (pattern text : list Z) (c : Z) :
    wildcard_match pattern text ->
    wildcard_match (95%Z :: pattern) (c :: text)
| match_itself (pattern text : list Z) (p c : Z) :
    p <> 37%Z -> p <> 95%Z -> same_letter p c ->
    wildcard_match pattern text ->
    wildcard_match (p :: pattern) (c :: text).

(** A text that [json.dumps] writes as it is between two double quotes:
    printable ASCII without double quote or backslash. *)
Definition needs_no_escape (s : string) : bool :=
  forallb (fun c =>
             let n := nat_of_ascii c in
             (32 <=? n)%nat && (n <? 127)%nat
             && negb (n =? 34)%nat && negb (n =? 92)%nat)
    (list_ascii_of_string s).

(** The columns [search_expenses] looks at. *)
Definition text_fields (r : expense) : list (option string) :=
  [row_note r; Some (row_category r); row_subcategory r].

(** The three columns matched against one pattern. *)
Definition any_field (pattern : string) (r : expense) : bool :=
  existsb (fun column =>
             match column with
             | Some text => like_match pattern text
             | None => false
             end) (text_fields r).

(** ** Vocabulary of the further properties *)

(** The entry of a listing is the record with id [X]. *)
Definition has_id (X : Z) (entry : dict) : bool :=
  match get "id" entry with
  | Some (JInt i) => (i =? X)%Z
  | _ => false
  end.

(** The [count] an entry of a summary or report carries. *)
Definition count_of (entry : dict) : Z :=
  match get "count" entry with
  | Some (JInt n) => n
  | _ => 0%Z
  end.

Definition total_count (entries : list dict) : Z :=
  fold_right (fun entry n => (count_of entry + n)%Z) 0%Z entries.

(** An entry of a summary without its [count]. *)
Definition without_count (entry : dict) : dict :=
  filter (fun kv => negb (String.eqb (fst kv) "count")) entry.



(** The number of stored rows with id [X]. *)
Definition matching (X : Z) (d : db) : Z :=
  Z.of_nat (List.length (filter (fun r => (row_id r =? X)%Z) (expenses d))).

(** [mid] occurs in [text] as a run of characters, up to ASCII case. *)
Definition contains_ci (mid text : list Z) : Prop :=
  exists pre found post,
    text = (pre ++ found ++ post)%list /\ Forall2 same_letter mid found.






(** ** Sample data for the closed examples *)

Definition lunch : expense :=
  mkExpense 1 "2024-01-05" 10.5%float "Food" (Some "") (Some "lunch").

Definition bus : expense :=
  mkExpense 2 "2024-01-31" 4%float "Travel" None (Some "bus").

Definition dinner : expense :=
  mkExpense 3 "2024-02-01" 7%float "Food" (Some "out") None.

Definition ledger : db := {| expenses := [lunch; bus; dinner]; sqlite_sequence := 3 |}.

(** Left-to-right addition of doubles, one possible [SUM]. *)
Definition plain_sum (l : list float) : float :=
  fold_left PrimFloat.add l 0%float.

(** What [strftime] yields off the calendar dates, in one possible
    engine: NULL. *)
Definition no_other (format date : string) : option string := None.

(** * Properties *)

(** ** Sorting and grouping *)

Section OrderByFacts.
Context {A : Type}.
Variable leb : A -> A -> bool.

Lemma insert_sorted_perm (x : A) (l : list A) :
  Permutation (insert_sorted leb x l) (x :: l).
Proof.
  induction l as [|y l IH]; simpl.
  - apply Permutation_refl.
  - destruct (leb x y).
    + apply Permutation_refl.
    + apply Permutation_trans with (y :: x :: l).
      * apply perm_skip, IH.
      * apply perm_swap.
Qed.

Lemma order_by_perm (l : list A) : Permutation (order_by leb l) l.
Proof.
  induction l as [|x l IH]; simpl.
  - apply perm_nil.
  - apply Permutation_trans with (x :: order_by leb l).
    + apply insert_sorted_perm.
    + apply perm_skip, IH.
Qed.

Lemma order_by_In (l : list A) (x : A) : In x (order_by leb l) <-> In x l.
Proof.
  split; apply Permutation_in.
  - apply order_by_perm.
  - apply Permutation_sym, order_by_perm.
Qed.

Hypothesis leb_total : forall a b, leb a b = true \/ leb b a = true.
Hypothesis leb_trans :
  forall a b c, leb a b = true -> leb b c = true -> leb a c = true.

Let le (a b : A) : Prop := leb a b = true.

Lemma insert_sorted_sorted (x : A) (l : list A) :
  StronglySorted le l -> StronglySorted le (insert_sorted leb x l).
Proof.
  induction 1 as [|y l Hl IH Hy]; simpl.
  - constructor; constructor.
  - destruct (leb x y) eqn:Hxy.
    + constructor.
      * constructor; assumption.
      * constructor; [exact Hxy|].
        rewrite Forall_forall in *. intros z Hz.
        apply leb_trans with y; [exact Hxy | apply Hy, Hz].
    + constructor; [exact IH|].
      rewrite Forall_forall in *. intros z Hz.
      apply (Permutation_in _ (insert_sorted_perm x l)) in Hz.
      destruct Hz as [<-|Hz].
      * destruct (leb_total x y) as [H|H]; [congruence | exact H].
      * apply Hy, Hz.
Qed.

Lemma order_by_sorted (l : list A) : StronglySorted le (order_by leb l).
Proof.
  induction l as [|x l IH]; simpl.
  - constructor.
  - apply insert_sorted_sorted, IH.
Qed.
End OrderByFacts.

Section GroupByFacts.
Context {A K : Type}.
Variable K_eq_dec : forall a b : K, {a = b} + {a <> b}.
Variable key : A -> K.

Lemma group_by_keys (rows : list A) :
  map fst (group_by K_eq_dec key rows) = nodup K_eq_dec (map key rows).
Proof.
  unfold group_by. rewrite map_map. simpl. apply map_id.
Qed.

(** Keys of the groups are pairwise distinct. *)
Lemma group_by_NoDup (rows : list A) :
  NoDup (map fst (group_by K_eq_dec key rows)).
Proof. rewrite group_by_keys. apply NoDup_nodup. Qed.

(** A group is its key with exactly the rows that have this key. *)
Lemma group_by_In (rows : list A) (g : K * list A) :
  In g (group_by K_eq_dec key rows) <->
  (exists r, In r rows /\ key r = fst g) /\
  snd g = filter (key_is K_eq_dec key (fst g)) rows.
Proof.
  unfold group_by. rewrite in_map_iff. split.
  - intros [k [<- Hk]]. simpl. split; [|reflexivity].
    apply nodup_In, in_map_iff in Hk. destruct Hk as [r [Hr Hin]].
    exists r. split; assumption.
  - intros [[r [Hin Hr]] Hg]. exists (fst g). split.
    + destruct g as [k rs]. simpl in *. congruence.
    + apply nodup_In, in_map_iff. exists r. split; assumption.
Qed.
End GroupByFacts.

(** ** The order on text *)

Lemma ascii_compare_refl (a : ascii) : Ascii.compare a a = Eq.
Proof. unfold Ascii.compare. apply N.compare_refl. Qed.

Lemma ascii_compare_lt_trans (a b c : ascii) :
  Ascii.compare a b = Lt -> Ascii.compare b c = Lt -> Ascii.compare a c = Lt.
Proof.
  unfold Ascii.compare. rewrite !N.compare_lt_iff. apply N.lt_trans.
Qed.

Lemma string_compare_refl (s : string) : String.compare s s = Eq.
Proof.
  induction s as [|a s IH]; simpl; [reflexivity|].
  rewrite ascii_compare_refl. exact IH.
Qed.

Lemma string_compare_lt_trans (s1 : string) :
  forall s2 s3, String.compare s1 s2 = Lt -> String.compare s2 s3 = Lt ->
  String.compare s1 s3 = Lt.
Proof.
  induction s1 as [|a s1 IH]; intros [|b s2] [|c s3]; simpl;
    try discriminate; try reflexivity.
  destruct (Ascii.compare a b) eqn:Hab; try discriminate;
    destruct (Ascii.compare b c) eqn:Hbc; try discriminate; intros H12 H23.
  - apply Ascii.compare_eq_iff in Hab, Hbc. subst.
    rewrite ascii_compare_refl. eapply IH; eassumption.
  - apply Ascii.compare_eq_iff in Hab. subst. rewrite Hbc. reflexivity.
  - apply Ascii.compare_eq_iff in Hbc. subst. rewrite Hab. reflexivity.
  - rewrite (ascii_compare_lt_trans _ _ _ Hab Hbc). reflexivity.
Qed.

Lemma string_leb_trans (s1 s2 s3 : string) :
  String.leb s1 s2 = true -> String.leb s2 s3 = true ->
  String.leb s1 s3 = true.
Proof.
  unfold String.leb.
  destruct (String.compare s1 s2) eqn:H12; try discriminate;
    destruct (String.compare s2 s3) eqn:H23; try discriminate; intros _ _.
  - apply String.compare_eq_iff in H12, H23. subst.
    rewrite string_compare_refl. reflexivity.
  - apply String.compare_eq_iff in H12. subst. rewrite H23. reflexivity.
  - apply String.compare_eq_iff in H23. subst. rewrite H12. reflexivity.
  - rewrite (string_compare_lt_trans _ _ _ H12 H23). reflexivity.
Qed.



(** ** What the statements do *)


Lemma filter_all {A : Type} (f : A -> bool) (l : list A) :
  (forall x, In x l -> f x = true) -> filter f l = l.
Proof.
  induction l as [|x l IH]; simpl; intros H; [reflexivity|].
  rewrite (H x (or_introl eq_refl)). f_equal. apply IH.
  intros y Hy. apply H. right. exact Hy.
Qed.

Lemma filter_none {A : Type} (f : A -> bool) (l : list A) :
  (forall x, In x l -> f x = false) -> filter f l = [].
Proof.
  induction l as [|x l IH]; simpl; intros H; [reflexivity|].
  rewrite (H x (or_introl eq_refl)). apply IH.
  intros y Hy. apply H. right. exact Hy.
Qed.

Lemma largest_rowid_bound (rows : list expense) (r : expense) :
  In r rows -> (row_id r <= Sqlite.largest_rowid rows)%Z.
Proof.
  induction rows as [|x rows IH]; simpl; intros H; [contradiction|].
  destruct H as [->|H]; [lia|]. specialize (IH H). lia.
Qed.



(** An update never changes the ids of the table. *)
Lemma assign_all_id (fields : list Sqlite.assignment) :
  forall r r', Sqlite.assign_all fields r = inr r' -> row_id r' = row_id r.
Proof.
  induction fields as [|a fields IH]; simpl; intros r r' H.
  - congruence.
  - destruct (Sqlite.assign a r) as [c|r1] eqn:Ha; [discriminate|].
    rewrite (IH _ _ H).
    destruct a; simpl in Ha;
      try (injection Ha as <-; reflexivity).
    destruct (Sqlite.bind_real v); [injection Ha as <-; reflexivity|discriminate].
Qed.

Lemma update_rows_ids (fields : list Sqlite.assignment) (expense_id : Z) :
  forall rows out n,
  Sqlite.update_rows fields expense_id rows = inr (out, n) ->
  map row_id out = map row_id rows.
Proof.
  induction rows as [|r rows IH]; simpl; intros out n H.
  - injection H as <- _. reflexivity.
  - destruct (row_id r =? expense_id)%Z.
    + destruct (Sqlite.assign_all fields r) as [c|r'] eqn:Hr; [discriminate|].
      destruct (Sqlite.update_rows fields expense_id rows) as [c|[out' n']];
        [discriminate|].
      injection H as <- _. simpl.
      rewrite (assign_all_id _ _ _ Hr), (IH _ _ eq_refl). reflexivity.
    + destruct (Sqlite.update_rows fields expense_id rows) as [c|[out' n']];
        [discriminate|].
      injection H as <- _. simpl. rewrite (IH _ _ eq_refl). reflexivity.
Qed.

Lemma update_ids (fields : list Sqlite.assignment) (expense_id : Z) (d : db) :
  map row_id (expenses (snd (Sqlite.update fields expense_id d))) =
    map row_id (expenses d)
  /\ sqlite_sequence (snd (Sqlite.update fields expense_id d)) =
       sqlite_sequence d.
Proof.
  unfold Sqlite.update.
  destruct (negb (Sqlite.int64 expense_id)); [split; reflexivity|].
  destruct (Sqlite.update_rows fields expense_id (expenses d))
    as [c|[out n]] eqn:H; simpl.
  - split; reflexivity.
  - split; [exact (update_rows_ids _ _ _ _ _ H) | reflexivity].
Qed.

(** What an insert does, case by case. *)
Lemma insert_cases (date : option string) (amount : option float)
    (category subcategory note : option string) (d : db) :
  let prev := Z.max (sqlite_sequence d) (Sqlite.largest_rowid (expenses d)) in
  (exists e, Sqlite.insert date amount category subcategory note d
             = (Raise e, d))
  \/ (exists date' amount' category',
        date = Some date' /\ Sqlite.bind_opt_real amount = Some amount' /\
        category = Some category' /\ (prev < Sqlite.max_rowid)%Z /\
        Sqlite.insert date amount category subcategory note d =
          (Return (prev + 1)%Z,
           {| expenses :=
                (expenses d ++
                 [mkExpense (prev + 1) date' amount' category'
                    subcategory note])%list;
              sqlite_sequence := (prev + 1)%Z |})).
Proof.
  intros prev. unfold Sqlite.insert. fold prev.
  destruct (Z.leb_spec Sqlite.max_rowid prev) as [Hfull|Hroom].
  - left. eexists. reflexivity.
  - destruct date as [date'|]; [|left; eexists; reflexivity].
    destruct (Sqlite.bind_opt_real amount) as [amount'|];
      [|left; eexists; reflexivity].
    destruct category as [category'|]; [|left; eexists; reflexivity].
    right. exists date', amount', category'. repeat split. exact Hroom.
Qed.

(** ** Patching a row *)

Lemma set_if_given_none {A : Type} (mk : A -> Sqlite.assignment)
    (x : option A) (fields : list Sqlite.assignment) :
  is_not_none x = false -> Base.set_if_given mk x fields = fields.
Proof. destruct x; simpl; [discriminate | reflexivity]. Qed.

Lemma set_if_truthy_false {A : Type} (truthy : option A -> bool)
    (mk : A -> Sqlite.assignment) (x : option A)
    (fields : list Sqlite.assignment) :
  truthy x = false -> Remote.set_if_truthy truthy mk x fields = fields.
Proof. intros H. unfold Remote.set_if_truthy. rewrite H. destruct x; reflexivity. Qed.

Lemma set_if_truthy_true {A : Type} (truthy : option A -> bool)
    (mk : A -> Sqlite.assignment) (v : A) (fields : list Sqlite.assignment) :
  truthy (Some v) = true ->
  Remote.set_if_truthy truthy mk (Some v) fields = (fields ++ [mk v])%list.
Proof. intros H. unfold Remote.set_if_truthy. rewrite H. reflexivity. Qed.

(** C1: a call of [edit_expense] in which every optional field resolves as
    not provided ([None] in the base variant, falsy in the extended one)
    returns the error result with the variant's no-fields message and
    leaves the database exactly as it was. *)
Theorem edit_expense_without_fields (expense_id : Z) (d : db) :
  (forall (date : option string) (amount : option float)
          (category subcategory note : option string),
     is_not_none date = false -> is_not_none amount = false ->
     is_not_none category = false -> is_not_none subcategory = false ->
     is_not_none note = false ->
     Base.edit_expense expense_id date amount category subcategory note d =
       (Return [("status", JStr "error");
                ("message", JStr "No fields provided to update")], d))
  /\
  (forall (date : option string) (amount : option float)
          (category subcategory note : option string),
     truthy_text date = false -> truthy_real amount = false ->
     truthy_text category = false -> truthy_text subcategory = false ->
     truthy_text note = false ->
     Remote.edit_expense expense_id date amount category subcategory note d =
       ([("status", JStr "error"); ("message", JStr "No fields provided")], d)).
Proof.
  split; intros date amount category subcategory note H1 H2 H3 H4 H5.
  - unfold Base.edit_expense.
    rewrite !set_if_given_none by assumption. reflexivity.
  - unfold Remote.edit_expense.
    rewrite !set_if_truthy_false by assumption. reflexivity.
Qed.

Lemma edit_expense_without_fields_witness :
  Base.edit_expense 1 None None None None None ledger =
    (Return [("status", JStr "error");
             ("message", JStr "No fields provided to update")], ledger)
  /\
  Remote.edit_expense 1 (Some "") (Some 0%float) None (Some "") None ledger =
    ([("status", JStr "error"); ("message", JStr "No fields provided")],
     ledger).
Proof.
  destruct (edit_expense_without_fields 1 ledger) as [HB HR].
  split; [apply HB | apply HR]; reflexivity.
Defined.

Lemma update_rows_category (X : Z) (Y : string) (rows : list expense) :
  Sqlite.update_rows [Sqlite.SetCategory Y] X rows =
    inr (map (fun r => if (row_id r =? X)%Z then with_category Y r else r) rows,
         Z.of_nat (List.length (filter (fun r => (row_id r =? X)%Z) rows))).
Proof.
  induction rows as [|r rows IH]; [reflexivity|].
  cbn [Sqlite.update_rows map filter].
  rewrite IH. destruct (row_id r =? X)%Z.
  - cbn. f_equal. f_equal. lia.
  - reflexivity.
Qed.

(** C5: a patch that supplies only the category, with a provided value
    [Y], rewrites the category of the row with the given id and nothing
    else: every other field of that row and every other row is as before,
    and so is the id counter.  The reply counts the rows matched.  An id
    outside the 64 bits of an SQLite integer, which no stored row has,
    cannot be bound: the base variant raises, the extended variant answers
    status "error", and nothing is rewritten. *)
Theorem edit_category_only (X : Z) (Y : string) (d : db) :
  let patched :=
    with_expenses
      (map (fun r => if (row_id r =? X)%Z then with_category Y r else r)
         (expenses d)) d in
  let matched :=
    Z.of_nat (List.length (filter (fun r => (row_id r =? X)%Z) (expenses d))) in
  let in_range :=
    (-9223372036854775808 <=? X)%Z && (X <=? 9223372036854775807)%Z in
  let message := "Python int too large to convert to SQLite INTEGER" in
  Base.edit_expense X None None (Some Y) None None d =
    (if in_range
     then (Return [("status", JStr "ok"); ("rows_updated", JInt matched)],
           patched)
     else (Raise (OverflowError message), d))
  /\
  (Y <> "" ->
   Remote.edit_expense X None None (Some Y) None None d =
     if in_range
     then ([("status", JStr "ok"); ("rows_updated", JInt matched)], patched)
     else ([("status", JStr "error"); ("message", JStr message)], d)).
Proof.
  intros patched matched in_range message.
  change in_range with (Sqlite.int64 X). split.
  - unfold Base.edit_expense. cbn [Base.set_if_given is_not_none app].
    unfold Sqlite.update. destruct (Sqlite.int64 X); cbn [negb];
      [|reflexivity].
    rewrite update_rows_category. reflexivity.
  - intros HY. unfold Remote.edit_expense.
    assert (HT : truthy_text (Some Y) = true).
    { simpl. destruct (String.eqb_spec Y ""); [contradiction | reflexivity]. }
    rewrite (set_if_truthy_false truthy_text _ None) by reflexivity.
    rewrite (set_if_truthy_false truthy_real _ None) by reflexivity.
    rewrite (set_if_truthy_true truthy_text _ Y) by exact HT.
    rewrite !(set_if_truthy_false truthy_text _ None) by reflexivity.
    cbn [app]. unfold Sqlite.update. destruct (Sqlite.int64 X); cbn [negb];
      [|reflexivity].
    rewrite update_rows_category. reflexivity.
Qed.

Lemma edit_category_only_witness :
  Remote.edit_expense 2 None None (Some "Commute") None None ledger =
    ([("status", JStr "ok"); ("rows_updated", JInt 1)],
     {| expenses := [lunch; with_category "Commute" bus; dinner];
        sqlite_sequence := 3 |}).
Proof.
  apply (edit_category_only 2 "Commute" ledger). discriminate.
Defined.

(** ** Ids that match no row *)









(** ** Listing a date range *)

Lemma StronglySorted_weaken {A : Type} (R R' : A -> A -> Prop) (l : list A) :
  (forall a b, R a b -> R' a b) -> StronglySorted R l -> StronglySorted R' l.
Proof.
  intros HR. induction 1 as [|x l Hl IH Hx]; constructor.
  - exact IH.
  - eapply Forall_impl; [|exact Hx]. intros b. apply HR.
Qed.

Lemma id_asc_total (a b : expense) :
  Sqlite.id_asc a b = true \/ Sqlite.id_asc b a = true.
Proof. unfold Sqlite.id_asc. rewrite !Z.leb_le. lia. Qed.

Lemma id_asc_trans (a b c : expense) :
  Sqlite.id_asc a b = true -> Sqlite.id_asc b c = true ->
  Sqlite.id_asc a c = true.
Proof. unfold Sqlite.id_asc. rewrite !Z.leb_le. lia. Qed.

Lemma date_desc_id_desc_spec (a b : expense) :
  Sqlite.date_desc_id_desc a b = true <-> later_first a b.
Proof.
  unfold Sqlite.date_desc_id_desc, later_first.
  destruct (String.compare (row_date b) (row_date a)) eqn:H.
  - apply String.compare_eq_iff in H. rewrite Z.leb_le. split.
    + intros Hle. right. split; [symmetry; exact H | exact Hle].
    + intros [Hlt|[_ Hle]]; [discriminate | exact Hle].
  - split; auto.
  - split; [discriminate|]. intros [Hlt|[E _]]; [discriminate|].
    rewrite E, string_compare_refl in H. discriminate.
Qed.

Lemma date_desc_id_desc_total (a b : expense) :
  Sqlite.date_desc_id_desc a b = true \/ Sqlite.date_desc_id_desc b a = true.
Proof.
  unfold Sqlite.date_desc_id_desc.
  rewrite (String.compare_antisym (row_date a) (row_date b)).
  destruct (String.compare (row_date b) (row_date a)); simpl; auto.
  rewrite !Z.leb_le. lia.
Qed.

Lemma date_desc_id_desc_trans (a b c : expense) :
  Sqlite.date_desc_id_desc a b = true -> Sqlite.date_desc_id_desc b c = true ->
  Sqlite.date_desc_id_desc a c = true.
Proof.
  rewrite !date_desc_id_desc_spec. unfold later_first.
  intros [Hba|[Eab Hba]] [Hcb|[Ebc Hcb]].
  - left. exact (string_compare_lt_trans _ _ _ Hcb Hba).
  - left. rewrite <- Ebc. exact Hba.
  - left. rewrite Eab. exact Hcb.
  - right. split; [congruence | lia].
Qed.

(** C3: [list_expenses] returns exactly the stored rows whose date lies
    between [start_date] and [end_date] in bytewise order, both ends
    included, each as often as it is stored and each as the record of its
    six columns; the base variant lists them by ascending id, the extended
    variant by descending date and, within a date, descending id. *)
Theorem list_expenses_in_range (start_date end_date : string) (d : db) :
  let in_range (r : expense) :=
    String.leb start_date (row_date r) && String.leb (row_date r) end_date in
  let record (r : expense) : dict :=
    [ ("id", JInt (row_id r));
      ("date", JStr (row_date r));
      ("amount", JReal (row_amount r));
      ("category", JStr (row_category r));
      ("subcategory",
       match row_subcategory r with Some s => JStr s | None => JNull end);
      ("note", match row_note r with Some s => JStr s | None => JNull end) ] in
  (exists rows,
     Base.list_expenses start_date end_date d = map record rows /\
     Permutation rows (filter in_range (expenses d)) /\
     (forall r, In r rows <->
        In r (expenses d) /\ String.leb start_date (row_date r) = true
        /\ String.leb (row_date r) end_date = true) /\
     StronglySorted (fun a b => (row_id a <= row_id b)%Z) rows)
  /\
  (exists rows,
     Remote.list_expenses start_date end_date d = map record rows /\
     Permutation rows (filter in_range (expenses d)) /\
     (forall r, In r rows <->
        In r (expenses d) /\ String.leb start_date (row_date r) = true
        /\ String.leb (row_date r) end_date = true) /\
     StronglySorted later_first rows).
Proof.
  intros in_range record.
  assert (Hin : forall leb r,
    In r (order_by leb (filter in_range (expenses d))) <->
    In r (expenses d) /\ String.leb start_date (row_date r) = true
    /\ String.leb (row_date r) end_date = true).
  { intros leb r. rewrite order_by_In, filter_In. unfold in_range.
    rewrite andb_true_iff. reflexivity. }
  split.
  - exists (order_by Sqlite.id_asc (filter in_range (expenses d))).
    split; [reflexivity|]. split; [apply order_by_perm|].
    split; [apply Hin|].
    eapply StronglySorted_weaken;
      [|apply order_by_sorted; [apply id_asc_total | apply id_asc_trans]].
    intros a b H. apply Z.leb_le. exact H.
  - exists (order_by Sqlite.date_desc_id_desc (filter in_range (expenses d))).
    split; [reflexivity|]. split; [apply order_by_perm|].
    split; [apply Hin|].
    eapply StronglySorted_weaken;
      [|apply order_by_sorted;
        [apply date_desc_id_desc_total | apply date_desc_id_desc_trans]].
    intros a b H. apply date_desc_id_desc_spec. exact H.
Qed.

Example list_expenses_january :
  Base.list_expenses "2024-01-01" "2024-01-31" ledger =
    [expense_dict lunch; expense_dict bus]
  /\ Remote.list_expenses "2024-01-01" "2024-01-31" ledger =
       [expense_dict bus; expense_dict lunch].
Proof. split; reflexivity. Qed.

(** ** Ids over a session *)

Lemma advances_same (d : db) : advances None d d.
Proof.
  repeat split; try lia; try discriminate; auto.
  intros r Hr. left. apply in_map, Hr.
Qed.

Lemma insert_advances (date : option string) (amount : option float)
    (category subcategory note : option string) (d : db) :
  advances (id_of (fst (Sqlite.insert date amount category subcategory note d)))
    d (snd (Sqlite.insert date amount category subcategory note d)).
Proof.
  destruct (insert_cases date amount category subcategory note d)
    as [[e ->]|[date' [amount' [category' [_ [_ [_ [Hroom ->]]]]]]]].
  - apply advances_same.
  - cbn [fst snd id_of].
    set (prev := Z.max (sqlite_sequence d) (Sqlite.largest_rowid (expenses d))).
    assert (Hprev : (sqlite_sequence d <= prev)%Z) by (unfold prev; lia).
    unfold advances, sequence_tracks. cbn [expenses sqlite_sequence].
    split; [lia|]. split; [|split].
    + intros Ht r Hr. apply in_app_or in Hr. destruct Hr as [Hr|[<-|[]]].
      * specialize (Ht r Hr). lia.
      * cbn. lia.
    + intros r Hr. apply in_app_or in Hr. destruct Hr as [Hr|[<-|[]]].
      * left. apply in_map, Hr.
      * right. reflexivity.
    + intros i Hi. injection Hi as <-. lia.
Qed.

Lemma update_advances (fields : list Sqlite.assignment) (X : Z) (d : db) :
  advances None d (snd (Sqlite.update fields X d)).
Proof.
  destruct (update_ids fields X d) as [Hids Hseq].
  assert (Hsub : forall r, In r (expenses (snd (Sqlite.update fields X d))) ->
                 In (row_id r) (map row_id (expenses d))).
  { intros r Hr. rewrite <- Hids. apply in_map, Hr. }
  unfold advances, sequence_tracks. rewrite Hseq.
  split; [lia|]. split; [|split].
  - intros Ht r Hr. apply Hsub, in_map_iff in Hr.
    destruct Hr as [r0 [E Hr0]]. rewrite <- E. apply Ht, Hr0.
  - intros r Hr. left. apply Hsub, Hr.
  - discriminate.
Qed.

Lemma delete_advances (X : Z) (d : db) :
  advances None d (snd (Sqlite.delete X d)).
Proof.
  unfold Sqlite.delete.
  destruct (negb (Sqlite.int64 X)); [apply advances_same|].
  unfold advances, sequence_tracks. simpl.
  split; [lia|]. split; [|split].
  - intros Ht r Hr. apply filter_In in Hr. apply Ht, Hr.
  - intros r Hr. apply filter_In in Hr. left. apply in_map, Hr.
  - discriminate.
Qed.

Lemma Base_delete_advances (X : Z) (d : db) :
  advances (returned_id (fst (Base.delete_expense X d))) d
    (snd (Base.delete_expense X d)).
Proof.
  pose proof (delete_advances X d) as H. unfold Base.delete_expense.
  destruct (Sqlite.delete X d) as [[n|e] d']; exact H.
Qed.

Lemma Remote_delete_advances (X : Z) (d : db) :
  advances (created_id (fst (Remote.delete_expense X d))) d
    (snd (Remote.delete_expense X d)).
Proof.
  pose proof (delete_advances X d) as H. unfold Remote.delete_expense.
  destruct (Sqlite.delete X d) as [[n|e] d']; exact H.
Qed.

Lemma Base_edit_advances (X : Z) (date : option string)
    (amount : option float) (category subcategory note : option string)
    (d : db) :
  returned_id (fst (Base.edit_expense X date amount category subcategory note d))
    = None
  /\ (snd (Base.edit_expense X date amount category subcategory note d) = d
      \/ exists fields,
           snd (Base.edit_expense X date amount category subcategory note d)
           = snd (Sqlite.update fields X d)).
Proof.
  unfold Base.edit_expense.
  destruct (Base.set_if_given Sqlite.SetNote note _) as [|a fields].
  - split; [reflexivity | left; reflexivity].
  - destruct (Sqlite.update (a :: fields) X d) as [[n|e] d'] eqn:E.
    + split; [reflexivity|]. right. exists (a :: fields). rewrite E. reflexivity.
    + split; [reflexivity|]. right. exists (a :: fields). rewrite E. reflexivity.
Qed.

Lemma Remote_edit_advances (X : Z) (date : option string)
    (amount : option float) (category subcategory note : option string)
    (d : db) :
  created_id (fst (Remote.edit_expense X date amount category subcategory note d))
    = None
  /\ (snd (Remote.edit_expense X date amount category subcategory note d) = d
      \/ exists fields,
           snd (Remote.edit_expense X date amount category subcategory note d)
           = snd (Sqlite.update fields X d)).
Proof.
  unfold Remote.edit_expense.
  destruct (Remote.set_if_truthy truthy_text Sqlite.SetNote note _)
    as [|a fields].
  - split; [reflexivity | left; reflexivity].
  - destruct (Sqlite.update (a :: fields) X d) as [[n|e] d'] eqn:E.
    + split; [reflexivity|]. right. exists (a :: fields). rewrite E. reflexivity.
    + split; [reflexivity|]. right. exists (a :: fields). rewrite E. reflexivity.
Qed.

Lemma Base_step_advances (c : Base.call) (d : db) :
  advances (returned_id (fst (Base.step c d))) d (snd (Base.step c d)).
Proof.
  destruct c as [date amount category subcategory note
                |X date amount category subcategory note|X]; cbn [Base.step].
  - pose proof (insert_advances date amount category subcategory note d) as H.
    unfold Base.add_expense.
    destruct (Sqlite.insert date amount category subcategory note d)
      as [[i|e] d']; exact H.
  - destruct (Base_edit_advances X date amount category subcategory note d)
      as [-> [->|[fields ->]]].
    + apply advances_same.
    + apply update_advances.
  - apply Base_delete_advances.
Qed.

Lemma Remote_step_advances (c : Remote.call) (d : db) :
  advances (created_id (fst (Remote.step c d))) d (snd (Remote.step c d)).
Proof.
  destruct c as [date amount category subcategory note
                |X date amount category subcategory note|X]; cbn [Remote.step].
  - pose proof (insert_advances date amount category subcategory note d) as H.
    unfold Remote.add_expense.
    destruct (Sqlite.insert date amount category subcategory note d)
      as [[i|e] d']; exact H.
  - destruct (Remote_edit_advances X date amount category subcategory note d)
      as [-> [->|[fields ->]]].
    + apply advances_same.
    + apply update_advances.
  - apply Remote_delete_advances.
Qed.

Section SessionFacts.
Context {C R : Type}.
Variable step : C -> db -> R * db.
Variable created : R -> option Z.
Hypothesis step_advances :
  forall c d, advances (created (fst (step c d))) d (snd (step c d)).

Lemma run_advances (calls : list C) :
  forall d,
  let ids := collect created (fst (run step calls d)) in
  let d' := snd (run step calls d) in
  (sqlite_sequence d <= sqlite_sequence d')%Z
  /\ (sequence_tracks d -> sequence_tracks d')
  /\ StronglySorted Z.lt ids
  /\ Forall (fun i => (sqlite_sequence d < i <= sqlite_sequence d')%Z) ids
  /\ (forall r, In r (expenses d') ->
        In (row_id r) (map row_id (expenses d)) \/ In (row_id r) ids).
Proof.
  induction calls as [|c calls IH]; intros d; cbn [run].
  - cbn. split; [lia|]. split; [auto|]. split; [constructor|].
    split; [constructor|]. intros r Hr. left. apply in_map, Hr.
  - pose proof (step_advances c d) as Hc.
    destruct (step c d) as [reply d1]. cbn [fst snd] in Hc.
    specialize (IH d1).
    destruct (run step calls d1) as [replies d2]. cbn [fst snd] in IH |- *.
    destruct Hc as [Hs1 [Ht1 [Hr1 Hi1]]].
    destruct IH as [Hs2 [Ht2 [Hsorted [Hbound Hr2]]]].
    assert (Hrows : forall (ids : list Z) r,
      (forall i, In i (collect created replies) -> In i ids) ->
      (created reply = Some (row_id r) -> In (row_id r) ids) ->
      In r (expenses d2) ->
      In (row_id r) (map row_id (expenses d)) \/ In (row_id r) ids).
    { intros ids r Hsub Hnew Hr. destruct (Hr2 r Hr) as [H|H].
      - apply in_map_iff in H. destruct H as [r1 [E H1]].
        destruct (Hr1 r1 H1) as [H|H].
        + left. rewrite <- E. exact H.
        + right. apply Hnew. rewrite <- E. exact H.
      - right. apply Hsub, H. }
    cbn [collect]. destruct (created reply) as [i|] eqn:Ei.
    + specialize (Hi1 i eq_refl).
      split; [lia|]. split; [auto|]. split; [|split].
      * constructor; [exact Hsorted|].
        eapply Forall_impl; [|exact Hbound]. cbn. intros j Hj. lia.
      * constructor; [lia|].
        eapply Forall_impl; [|exact Hbound]. cbn. intros j Hj. lia.
      * intros r Hr. apply (Hrows (i :: collect created replies) r).
        -- intros j Hj. right. exact Hj.
        -- intros E. left. congruence.
        -- exact Hr.
    + split; [lia|]. split; [auto|]. split; [exact Hsorted|]. split.
      * eapply Forall_impl; [|exact Hbound]. cbn. intros j Hj. lia.
      * intros r Hr. apply (Hrows (collect created replies) r).
        -- auto.
        -- discriminate.
        -- exact Hr.
Qed.
End SessionFacts.

(** C7: over any session of calls, in either variant, the ids that
    successful [add_expense] calls return are strictly increasing in call
    order, so each is new and greater than all returned before it; each is
    greater than the id of every row stored when the session began; every
    row stored at the end carries an id that was stored at the beginning or
    returned during the session; and [edit_expense] never changes the id
    of a row.  Hence an id is not handed out again after its row is
    deleted. *)
Theorem created_ids_never_reused (d : db) :
  sequence_tracks d ->
  (forall calls,
     let ids := collect returned_id (fst (run Base.step calls d)) in
     StronglySorted Z.lt ids
     /\ (forall i r, In i ids -> In r (expenses d) -> (row_id r < i)%Z)
     /\ (forall r, In r (expenses (snd (run Base.step calls d))) ->
           In (row_id r) (map row_id (expenses d)) \/ In (row_id r) ids))
  /\
  (forall calls,
     let ids := collect created_id (fst (run Remote.step calls d)) in
     StronglySorted Z.lt ids
     /\ (forall i r, In i ids -> In r (expenses d) -> (row_id r < i)%Z)
     /\ (forall r, In r (expenses (snd (run Remote.step calls d))) ->
           In (row_id r) (map row_id (expenses d)) \/ In (row_id r) ids))
  /\
  (forall X date amount category subcategory note,
     map row_id
       (expenses
          (snd (Base.edit_expense X date amount category subcategory note d)))
     = map row_id (expenses d))
  /\
  (forall X date amount category subcategory note,
     map row_id
       (expenses
          (snd (Remote.edit_expense X date amount category subcategory note d)))
     = map row_id (expenses d)).
Proof.
  intros Ht. split; [|split; [|split]].
  - intros calls ids.
    destruct (run_advances Base.step returned_id Base_step_advances calls d)
      as [_ [_ [Hsorted [Hbound Hrows]]]].
    split; [exact Hsorted|]. split; [|exact Hrows].
    intros i r Hi Hr. rewrite Forall_forall in Hbound.
    specialize (Hbound i Hi). specialize (Ht r Hr). lia.
  - intros calls ids.
    destruct (run_advances Remote.step created_id Remote_step_advances calls d)
      as [_ [_ [Hsorted [Hbound Hrows]]]].
    split; [exact Hsorted|]. split; [|exact Hrows].
    intros i r Hi Hr. rewrite Forall_forall in Hbound.
    specialize (Hbound i Hi). specialize (Ht r Hr). lia.
  - intros X date amount category subcategory note.
    destruct (Base_edit_advances X date amount category subcategory note d)
      as [_ [->|[fields ->]]]; [reflexivity | apply update_ids].
  - intros X date amount category subcategory note.
    destruct (Remote_edit_advances X date amount category subcategory note d)
      as [_ [->|[fields ->]]]; [reflexivity | apply update_ids].
Qed.

Lemma created_ids_never_reused_witness :
  collect returned_id
    (fst (run Base.step
            [ Base.AddExpense (Some "2024-03-01") (Some 3%float) (Some "Food")
                (Some "") (Some "");
              Base.DeleteExpense 4;
              Base.AddExpense (Some "2024-03-02") None (Some "Food")
                (Some "") (Some "");
              Base.AddExpense (Some "2024-03-02") (Some 8%float) (Some "Food")
                (Some "") (Some "") ]
            ledger))
  = [4%Z; 5%Z]
  /\
  StronglySorted Z.lt
    (collect returned_id
       (fst (run Base.step
               [ Base.AddExpense (Some "2024-03-01") (Some 3%float)
                   (Some "Food") (Some "") (Some "");
                 Base.DeleteExpense 4;
                 Base.AddExpense (Some "2024-03-02") None (Some "Food")
                   (Some "") (Some "");
                 Base.AddExpense (Some "2024-03-02") (Some 8%float)
                   (Some "Food") (Some "") (Some "") ]
               ledger))).
Proof.
  split; [reflexivity|].
  assert (Ht : sequence_tracks ledger).
  { unfold sequence_tracks. simpl. intros r [<-|[<-|[<-|[]]]]; simpl; lia. }
  destruct (created_ids_never_reused ledger Ht) as [HB _].
  apply HB.
Defined.

(** ** Summaries by category *)

Lemma grouped_by_category_nonempty (rows : list expense)
    (groups : list (string * list expense)) (g : string * list expense) :
  grouped_by_category rows groups -> In g groups -> snd g <> [].
Proof.
  intros [_ [Hiff Hrows]] Hg.
  destruct (proj1 (Hiff (fst g)) (in_map fst _ _ Hg)) as [r [Hr Hc]].
  rewrite (Hrows g Hg). intros Hnil.
  assert (Hin : In r (filter (fun r => String.eqb (row_category r) (fst g)) rows)).
  { apply filter_In. split; [exact Hr | apply String.eqb_eq, Hc]. }
  rewrite Hnil in Hin. exact Hin.
Qed.

Lemma grouped_by_category_nil (groups : list (string * list expense)) :
  grouped_by_category [] groups -> groups = [].
Proof.
  intros [_ [Hiff _]]. destruct groups as [|g groups]; [reflexivity|].
  destruct (proj1 (Hiff (fst g)) (or_introl eq_refl)) as [r [[] _]].
Qed.

Lemma order_by_groups (leb : string * list expense -> string * list expense -> bool)
    (rows : list expense) :
  grouped_by_category rows
    (order_by leb (group_by string_dec row_category rows)).
Proof.
  set (gs := group_by string_dec row_category rows).
  assert (Hperm : Permutation (order_by leb gs) gs) by apply order_by_perm.
  split; [|split].
  - apply (Permutation_NoDup (l := map fst gs)).
    + apply Permutation_sym, Permutation_map, Hperm.
    + apply group_by_NoDup.
  - intros c. split.
    + intros Hc.
      apply (Permutation_in _ (Permutation_map fst Hperm)) in Hc.
      unfold gs in Hc. rewrite group_by_keys in Hc.
      apply nodup_In, in_map_iff in Hc. destruct Hc as [r [E Hr]].
      exists r. split; assumption.
    + intros [r [Hr E]].
      apply (Permutation_in _ (Permutation_sym (Permutation_map fst Hperm))).
      unfold gs. rewrite group_by_keys. apply nodup_In, in_map_iff.
      exists r. split; assumption.
  - intros g Hg. apply order_by_In, group_by_In in Hg.
    destruct Hg as [_ ->]. apply filter_ext. intros r.
    unfold key_is.
    destruct (string_dec (row_category r) (fst g)) as [E|NE].
    + symmetry. apply String.eqb_eq, E.
    + symmetry. apply String.eqb_neq, NE.
Qed.

Lemma category_clause_selected (start_date end_date : string)
    (category : option string) (r : expense) :
  Sqlite.between start_date end_date r && Base.category_clause category r
  = selected start_date end_date (applied_filter category) r.
Proof.
  unfold selected, Sqlite.between, Base.category_clause, applied_filter.
  destruct category as [c|]; [|reflexivity]. simpl.
  destruct (String.eqb c ""); reflexivity.
Qed.

(** C2, as amended: [summarize] returns one entry per category that occurs
    among the rows dated within the closed range and, when a non-empty
    category is supplied, of that category; the entry's [total_amount] is
    the sum over exactly those rows of the category ([count], in the
    extended variant, their number); no entry stands for zero rows, and
    with no such row the result is empty.  A category given as the empty
    string filters nothing. *)
Theorem summarize_totals (SUM : list float -> float)
    (start_date end_date : string) (category : option string) (d : db) :
  let rows :=
    filter (selected start_date end_date (applied_filter category))
      (expenses d) in
  (exists groups,
     grouped_by_category rows groups
     /\ (forall g, In g groups -> snd g <> [])
     /\ (rows = [] -> groups = [])
     /\ Base.summarize SUM start_date end_date category d =
          map (fun g =>
                 [ ("category", JStr (fst g));
                   ("total_amount",
                    json_of_real (SUM (map row_amount (snd g)))) ])
            groups)
  /\
  (exists groups,
     grouped_by_category rows groups
     /\ (forall g, In g groups -> snd g <> [])
     /\ (rows = [] -> groups = [])
     /\ Remote.summarize SUM start_date end_date category d =
          map (fun g =>
                 [ ("category", JStr (fst g));
                   ("total_amount",
                    json_of_real (SUM (map row_amount (snd g))));
                   ("count", JInt (Z.of_nat (List.length (snd g)))) ])
            groups).
Proof.
  intros rows.
  assert (Hrows :
    filter (fun r => Sqlite.between start_date end_date r
                     && Base.category_clause category r) (expenses d) = rows).
  { apply filter_ext. intros r. apply category_clause_selected. }
  split.
  - exists (order_by Base.category_asc (group_by string_dec row_category rows)).
    pose proof (order_by_groups Base.category_asc rows) as HG.
    split; [exact HG|]. split; [|split].
    + intros g Hg. exact (grouped_by_category_nonempty _ _ g HG Hg).
    + intros E. rewrite E. reflexivity.
    + unfold Base.summarize. rewrite Hrows. reflexivity.
  - exists (order_by (Remote.total_desc SUM)
              (group_by string_dec row_category rows)).
    pose proof (order_by_groups (Remote.total_desc SUM) rows) as HG.
    split; [exact HG|]. split; [|split].
    + intros g Hg. exact (grouped_by_category_nonempty _ _ g HG Hg).
    + intros E. rewrite E. reflexivity.
    + unfold Remote.summarize.
      change Remote.category_clause with Base.category_clause.
      rewrite Hrows. reflexivity.
Qed.

(** C2, as stated, fails when the category supplied is the empty string:
    no stored row has that category, yet the summary has entries. *)
Lemma summarize_empty_category_counterexample :
  ~ (exists groups,
       grouped_by_category
         (filter (selected "2024-01-01" "2024-12-31" (Some ""))
            (expenses ledger)) groups
       /\ Base.summarize plain_sum "2024-01-01" "2024-12-31" (Some "") ledger =
            map (fun g =>
                   [ ("category", JStr (fst g));
                     ("total_amount",
                      json_of_real (plain_sum (map row_amount (snd g)))) ])
              groups).
Proof.
  intros [groups [HG Hres]].
  apply grouped_by_category_nil in HG. subst groups.
  vm_compute in Hres. discriminate Hres.
Qed.

Example summarize_ledger :
  Base.summarize plain_sum "2024-01-01" "2024-12-31" None ledger =
    [ [("category", JStr "Food"); ("total_amount", JReal 17.5%float)];
      [("category", JStr "Travel"); ("total_amount", JReal 4%float)] ]
  /\ Remote.summarize plain_sum "2024-01-01" "2024-01-31" (Some "Food") ledger =
       [ [("category", JStr "Food"); ("total_amount", JReal 10.5%float);
          ("count", JInt 1)] ].
Proof. split; vm_compute; reflexivity. Qed.

(** ** Creating a row *)




(** ** The monthly report *)

Lemma filter_twice {A : Type} (f g : A -> bool) (l : list A) :
  filter g (filter f l) = filter (fun x => f x && g x) l.
Proof.
  induction l as [|x l IH]; simpl; [reflexivity|].
  destruct (f x); simpl; [destruct (g x)|]; rewrite IH; reflexivity.
Qed.


Example str_of_year : Remote.str (Remote.YearInt 2024) = "2024".
Proof. reflexivity. Qed.










Example monthly_report_ledger :
  Remote.monthly_report plain_sum (strftime no_other) (Remote.YearInt 2024)
    ledger =
    [ [("month", JStr "01"); ("total_amount", JReal 14.5%float);
       ("count", JInt 2)];
      [("month", JStr "02"); ("total_amount", JReal 7%float);
       ("count", JInt 1)] ].
Proof. vm_compute. reflexivity. Qed.

(** ** The categories resource *)

Lemma append_assoc (a b c : string) : (a ++ b) ++ c = a ++ b ++ c.
Proof. induction a as [|x a IH]; simpl; [reflexivity | rewrite IH; reflexivity]. Qed.

(** C9, as amended: in the extended variant a request made when no
    categories document exists first writes the default document, the dump
    of exactly the ten fixed labels with the line ends of the platform, and
    returns it; a request made when a document exists leaves it alone.  In
    the base variant a request with no document raises and writes nothing.
    In both variants what is returned is the text of the document stored
    at that call, read as UTF-8 with every line end given as a line feed,
    so a document edited between two requests is what the second one
    returns; for a document that is no UTF-8 the extended variant returns
    an error document with the message of the decoder and the base variant
    raises. *)
Theorem categories_read_on_every_request (os : platform)
    (decode_message : string -> string) :
  let quote := String "034" EmptyString in
  let line_feed := String "010" EmptyString in
  let line_end :=
    match os with
    | Posix => String "010" EmptyString
    | Windows => String "013" (String "010" EmptyString)
    end in
  let lines (ending : string) :=
    "{" ++ ending ++
    "  " ++ quote ++ "categories" ++ quote ++ ": [" ++ ending ++
    "    " ++ quote ++ "Food & Dining" ++ quote ++ "," ++ ending ++
    "    " ++ quote ++ "Transportation" ++ quote ++ "," ++ ending ++
    "    " ++ quote ++ "Shopping" ++ quote ++ "," ++ ending ++
    "    " ++ quote ++ "Entertainment" ++ quote ++ "," ++ ending ++
    "    " ++ quote ++ "Bills & Utilities" ++ quote ++ "," ++ ending ++
    "    " ++ quote ++ "Healthcare" ++ quote ++ "," ++ ending ++
    "    " ++ quote ++ "Travel" ++ quote ++ "," ++ ending ++
    "    " ++ quote ++ "Education" ++ quote ++ "," ++ ending ++
    "    " ++ quote ++ "Business" ++ quote ++ "," ++ ending ++
    "    " ++ quote ++ "Other" ++ quote ++ ending ++
    "  ]" ++ ending ++
    "}" in
  Remote.categories os decode_message None =
    (lines line_feed, Some (lines line_end))
  /\ Remote.categories os decode_message (Some (lines line_end)) =
       (lines line_feed, Some (lines line_end))
  /\ (forall bytes : string,
        utf8_valid [] bytes = true ->
        Remote.categories os decode_message (Some bytes) =
          (universal_newlines bytes, Some bytes)
        /\ Base.categories decode_message (Some bytes) =
             (Return (universal_newlines bytes), Some bytes))
  /\ (forall bytes : string,
        utf8_valid [] bytes = false ->
        Base.categories decode_message (Some bytes) =
          (Raise (UnicodeDecodeError (decode_message bytes)), Some bytes)
        /\ (needs_no_escape (decode_message bytes) = true ->
            Remote.categories os decode_message (Some bytes) =
              ("{" ++ quote ++ "error" ++ quote ++ ": " ++
               quote ++ decode_message bytes ++ quote ++ "}",
               Some bytes)))
  /\ Base.categories decode_message None =
       (Raise (FileNotFoundError "categories.json"), None).
Proof.
  cbv zeta. split; [|split; [|split; [|split; [|reflexivity]]]].
  - destruct os; vm_compute; reflexivity.
  - destruct os; vm_compute; reflexivity.
  - intros bytes H.
    unfold Remote.categories, Base.categories, read_text.
    cbn [path_exists negb]. rewrite H. split; reflexivity.
  - intros bytes H.
    unfold Remote.categories, Base.categories, read_text.
    cbn [path_exists negb]. rewrite H. split; [reflexivity|]. intros _.
    unfold Remote.error_document, quoted. cbn [str_exn append].
    rewrite (append_assoc (decode_message bytes)). reflexivity.
Qed.

Lemma categories_read_on_every_request_witness :
  Remote.categories Windows (fun _ => "invalid start byte")
    (Some ("[" ++ String "013" (String "010" "]"))) =
    ("[" ++ String "010" "]", Some ("[" ++ String "013" (String "010" "]")))
  /\
  Remote.categories Windows (fun _ => "invalid start byte")
    (Some (String "255" EmptyString)) =
    (String "123" (String "034" ("error" ++ String "034" (": " ++
       String "034" ("invalid start byte" ++ String "034" "}")))),
     Some (String "255" EmptyString)).
Proof.
  destruct (categories_read_on_every_request Windows
              (fun _ => "invalid start byte")) as [_ [_ [Hvalid [Hinvalid _]]]].
  split.
  - apply (Hvalid ("[" ++ String "013" (String "010" "]"))). reflexivity.
  - apply (Hinvalid (String "255" EmptyString)); reflexivity.
Defined.

(** C9, as stated, fails in the base variant: with no document the request
    raises, and no default document is written. *)
Lemma categories_base_counterexample :
  ~ (exists text,
       Base.categories (fun _ => "") None =
         (Return text, Some (json_dump Remote.default_categories)))
  /\ Base.categories (fun _ => "") None =
       (Raise (FileNotFoundError "categories.json"), None).
Proof.
  split; [|reflexivity].
  intros [text H]. discriminate H.
Qed.

(** A document written with [CR LF] line ends is returned with [LF] line
    ends; one that is no UTF-8 is not returned at all. *)
Example categories_line_ends :
  Remote.categories Posix (fun _ => "")
    (Some ("[" ++ String "013" (String "010" "]"))) =
    ("[" ++ String "010" "]", Some ("[" ++ String "013" (String "010" "]")))
  /\ Base.categories (fun _ => "invalid start byte")
       (Some (String "255" EmptyString)) =
       (Raise (UnicodeDecodeError "invalid start byte"),
        Some (String "255" EmptyString)).
Proof. split; reflexivity. Qed.

Example default_document_lines :
  json_dump ["Food"; "Other"] =
    "{" ++ newline ++
    "  " ++ quoted "categories" ++ ": [" ++ newline ++
    "    " ++ quoted "Food" ++ "," ++ newline ++
    "    " ++ quoted "Other" ++ newline ++
    "  ]" ++ newline ++
    "}".
Proof. reflexivity. Qed.

(** ** Searching by keyword *)

Lemma like_chars_percent (p t : list Z) :
  like_chars (37%Z :: p) t =
    like_chars p t ||
    match t with
    | [] => false
    | _ :: t' => like_chars (37%Z :: p) t'
    end.
Proof. destruct t; reflexivity. Qed.

(** [%] lets the match start after any run of characters. *)
Lemma like_chars_after (p pre t : list Z) :
  like_chars p t = true -> like_chars (37%Z :: p) (pre ++ t) = true.
Proof.
  intros H. induction pre as [|c pre IH]; cbn [app].
  - rewrite like_chars_percent, H. reflexivity.
  - rewrite like_chars_percent, IH. apply orb_true_r.
Qed.

(** A lone [%] matches every text. *)
Lemma like_chars_any (t : list Z) : like_chars [37%Z] t = true.
Proof.
  induction t as [|c t IH].
  - reflexivity.
  - rewrite like_chars_percent, IH. apply orb_true_r.
Qed.

Lemma like_chars_percent_inv (p t : list Z) :
  like_chars (37%Z :: p) t = true ->
  exists pre t', t = (pre ++ t')%list /\ like_chars p t' = true.
Proof.
  induction t as [|c t IH]; rewrite like_chars_percent; intros H.
  - rewrite orb_false_r in H. exists [], []. split; [reflexivity | exact H].
  - apply orb_true_iff in H. destruct H as [H|H].
    + exists [], (c :: t). split; [reflexivity | exact H].
    + destruct (IH H) as [pre [t' [-> Ht']]].
      exists (c :: pre), t'. split; [reflexivity | exact Ht'].
Qed.

Lemma like_chars_other (c : Z) (p t : list Z) :
  c <> 37%Z -> c <> 95%Z ->
  like_chars (c :: p) t =
    match t with
    | [] => false
    | b :: t' => same_char c b && like_chars p t'
    end.
Proof.
  intros H37 H95. cbn [like_chars].
  rewrite (proj2 (Z.eqb_neq _ _) H37), (proj2 (Z.eqb_neq _ _) H95).
  reflexivity.
Qed.

(** Two characters are the same for [LIKE] when they are equal or the two
    cases of one ASCII letter. *)
Lemma same_char_spec (p c : Z) : same_char p c = true <-> same_letter p c.
Proof.
  unfold same_char, fold_case, same_letter.
  destruct (Z.eqb_spec p c) as [E|N]; [cbn [orb]; tauto|]. cbn [orb].
  destruct (Z.ltb_spec p 128), (Z.ltb_spec c 128),
    (Z.leb_spec 65 p), (Z.leb_spec p 90),
    (Z.leb_spec 65 c), (Z.leb_spec c 90); cbn [andb];
    rewrite ?Z.eqb_eq; split; intros Hs; try discriminate Hs; lia.
Qed.

(** [LIKE] on characters is the matching that the wildcards stand for. *)
Lemma like_chars_spec (p : list Z) :
  forall t, like_chars p t = true <-> wildcard_match p t.
Proof.
  intros t. split.
  - revert t. induction p as [|c p IH]; intros t H.
    + destruct t; [constructor | discriminate].
    + destruct (Z.eq_dec c 37) as [->|N37].
      * apply like_chars_percent_inv in H.
        destruct H as [run [t' [-> H]]]. apply match_any_run, IH, H.
      * destruct (Z.eq_dec c 95) as [->|N95].
        -- destruct t as [|b t]; [discriminate|].
           apply match_any_one, IH, H.
        -- rewrite (like_chars_other c p t N37 N95) in H.
           destruct t as [|b t]; [discriminate|].
           apply andb_true_iff in H. destruct H as [Hc H].
           apply match_itself; [exact N37 | exact N95 | | apply IH, H].
           apply same_char_spec, Hc.
  - induction 1 as [|p run t _ IH|p t c _ IH|p t c b N37 N95 Hc _ IH].
    + reflexivity.
    + apply like_chars_after, IH.
    + exact IH.
    + rewrite (like_chars_other c p (b :: t) N37 N95).
      apply andb_true_iff. split; [apply same_char_spec, Hc | exact IH].
Qed.

(** Characters that are no wildcards match themselves up to case. *)
Lemma like_chars_plain_inv (k p : list Z) :
  forallb plain_char k = true ->
  forall t, like_chars (k ++ p) t = true ->
  exists found t',
    t = (found ++ t')%list /\ Forall2 same_letter k found
    /\ like_chars p t' = true.
Proof.
  induction k as [|c k IH]; cbn [app forallb]; intros Hk t H.
  - exists [], t. split; [reflexivity|]. split; [constructor | exact H].
  - apply andb_true_iff in Hk. destruct Hk as [Hc Hk].
    apply andb_true_iff in Hc. destruct Hc as [H1 H2].
    apply negb_true_iff, Z.eqb_neq in H1, H2.
    rewrite (like_chars_other c _ t H1 H2) in H.
    destruct t as [|b t]; [discriminate|].
    apply andb_true_iff in H. destruct H as [Hcb H].
    destruct (IH Hk t H) as [found [t' [-> [Hf Ht']]]].
    exists (b :: found), t'. split; [reflexivity|]. split; [|exact Ht'].
    constructor; [apply same_char_spec, Hcb | exact Hf].
Qed.

Lemma like_chars_plain_ci (k p : list Z) :
  forallb plain_char k = true ->
  forall found t, Forall2 same_letter k found ->
  like_chars (k ++ p) (found ++ t) = like_chars p t.
Proof.
  induction k as [|c k IH]; cbn [app forallb]; intros Hk found t Hf.
  - inversion Hf. reflexivity.
  - inversion Hf as [|c' b k' found' Hb Hf' E1 E2]. subst.
    apply andb_true_iff in Hk. destruct Hk as [Hc Hk].
    apply andb_true_iff in Hc. destruct Hc as [H1 H2].
    apply negb_true_iff, Z.eqb_neq in H1, H2.
    cbn [app]. rewrite (like_chars_other c _ _ H1 H2).
    rewrite (proj2 (same_char_spec c b) Hb).
    apply IH; assumption.
Qed.

(** An ASCII byte other than NUL ends the character before it and is one
    by itself; a NUL before it ends the text. *)
Lemma read_chars_single (c : ascii) (b : string) :
  (byte c =? 0)%Z = false -> is_continuation c = false -> is_lead c = false ->
  forall (a : string) (open : option Z),
  read_chars open (a ++ String c b) =
    (read_chars open a ++
     (if nul_free a then byte c :: read_chars None b else []))%list.
Proof.
  intros H0 Hc Hl. induction a as [|x a IH]; intros open.
  - cbn [append read_chars nul_free]. rewrite H0, Hl.
    destruct open as [g|]; [rewrite Hc|]; reflexivity.
  - cbn [append read_chars nul_free].
    destruct (byte x =? 0)%Z; cbn [negb andb].
    + rewrite app_nil_r. reflexivity.
    + destruct open as [g|];
        [destruct (is_continuation x)|]; try destruct (is_lead x);
        rewrite IH; reflexivity.
Qed.

(** The characters of the pattern [f"%{keyword}%"]: a NUL byte in the
    keyword ends the pattern. *)
Lemma text_chars_pattern (keyword : string) :
  text_chars ("%" ++ keyword ++ "%") =
    (37%Z :: text_chars keyword ++ (if nul_free keyword then [37%Z] else []))%list.
Proof.
  change ("%" ++ keyword ++ "%") with (String "%" (keyword ++ String "%" "")).
  change (text_chars (String "%" (keyword ++ String "%" "")))
    with (37%Z :: read_chars None (keyword ++ String "%" "")).
  rewrite (read_chars_single "%" "") by reflexivity. reflexivity.
Qed.

Lemma length_append (a b : string) :
  String.length (a ++ b) = (String.length a + String.length b)%nat.
Proof. induction a as [|x a IH]; simpl; [reflexivity | rewrite IH; reflexivity]. Qed.

Lemma pattern_length (keyword : string) :
  Z.of_nat (String.length ("%" ++ keyword ++ "%")) =
    (Z.of_nat (String.length keyword) + 2)%Z.
Proof.
  change ("%" ++ keyword ++ "%") with (String "%" (keyword ++ "%")).
  cbn [String.length]. rewrite length_append. cbn [String.length]. lia.
Qed.

Lemma keyword_clause_short (keyword : string) (r : expense) :
  (Z.of_nat (String.length keyword) <= 49998)%Z ->
  Remote.keyword_clause keyword r =
    Return (any_field ("%" ++ keyword ++ "%") r).
Proof.
  intros H. unfold Remote.keyword_clause, like. cbv zeta.
  rewrite pattern_length.
  destruct (Z.ltb_spec like_pattern_limit (Z.of_nat (String.length keyword) + 2))
    as [Hlong|_]; [unfold like_pattern_limit in Hlong; lia|].
  unfold any_field, text_fields. cbn [existsb]. rewrite orb_false_r.
  rewrite orb_assoc.
  destruct (row_note r), (row_subcategory r); reflexivity.
Qed.

Lemma keyword_clause_long (keyword : string) (r : expense) :
  (49998 < Z.of_nat (String.length keyword))%Z ->
  Remote.keyword_clause keyword r =
    Raise (OperationalError "LIKE or GLOB pattern too complex").
Proof.
  intros H. unfold Remote.keyword_clause, like. cbv zeta.
  rewrite pattern_length.
  destruct (Z.ltb_spec like_pattern_limit (Z.of_nat (String.length keyword) + 2))
    as [_|Hshort]; [reflexivity|unfold like_pattern_limit in Hshort; lia].
Qed.

Lemma select_where_filter (clause : expense -> outcome bool)
    (keep : expense -> bool) (rows : list expense) :
  (forall r, clause r = Return (keep r)) ->
  select_where clause rows = Return (filter keep rows).
Proof.
  intros H. induction rows as [|r rows IH]; cbn [select_where filter].
  - reflexivity.
  - rewrite H, IH. reflexivity.
Qed.

Lemma any_field_spec (pattern : string) (r : expense) :
  any_field pattern r = true <->
  exists text, In (Some text) (text_fields r)
               /\ like_match pattern text = true.
Proof.
  unfold any_field. rewrite existsb_exists. split.
  - intros [[text|] [Hin H]]; [|discriminate]. exists text. split; assumption.
  - intros [text [Hin H]]. exists (Some text). split; assumption.
Qed.

Lemma date_desc_total (a b : expense) :
  Sqlite.date_desc a b = true \/ Sqlite.date_desc b a = true.
Proof. unfold Sqlite.date_desc. apply String.leb_total. Qed.

Lemma date_desc_trans (a b c : expense) :
  Sqlite.date_desc a b = true -> Sqlite.date_desc b c = true ->
  Sqlite.date_desc a c = true.
Proof.
  unfold Sqlite.date_desc. intros H1 H2.
  exact (string_leb_trans _ _ _ H2 H1).
Qed.

(** A search with a keyword of at most 49998 bytes. *)
Lemma search_expenses_short (keyword : string) (d : db) :
  (Z.of_nat (String.length keyword) <= 49998)%Z ->
  Remote.search_expenses keyword d =
    Remote.Records
      (map expense_dict
         (order_by Sqlite.date_desc
            (filter (any_field ("%" ++ keyword ++ "%")) (expenses d)))).
Proof.
  intros H. unfold Remote.search_expenses.
  rewrite (select_where_filter _ (any_field ("%" ++ keyword ++ "%")));
    [reflexivity|].
  intros r. apply keyword_clause_short, H.
Qed.

(** A search with a longer keyword fails at the first row. *)
Lemma search_expenses_long (keyword : string) (d : db) :
  (49998 < Z.of_nat (String.length keyword))%Z ->
  Remote.search_expenses keyword d =
    match expenses d with
    | [] => Remote.Records []
    | _ :: _ =>
        Remote.Failure
          [("status", JStr "error");
           ("message", JStr "LIKE or GLOB pattern too complex")]
    end.
Proof.
  intros H. unfold Remote.search_expenses.
  destruct (expenses d) as [|r rows]; [reflexivity|].
  cbn [select_where]. rewrite (keyword_clause_long keyword r H). reflexivity.
Qed.

(** The bytes 1 to 127 are characters by themselves. *)
Lemma text_chars_ascii (s : string) :
  forallb (fun c => (0 <? Z.of_nat (nat_of_ascii c))%Z
                    && (Z.of_nat (nat_of_ascii c) <? 128)%Z)
    (list_ascii_of_string s) = true ->
  text_chars s = map (fun c => Z.of_nat (nat_of_ascii c)) (list_ascii_of_string s).
Proof.
  unfold text_chars. induction s as [|c s IH]; cbn [list_ascii_of_string forallb map];
    intros H; [reflexivity|].
  apply andb_true_iff in H. destruct H as [Hc Hs].
  apply andb_true_iff in Hc. destruct Hc as [Hlo Hhi].
  apply Z.ltb_lt in Hlo, Hhi.
  cbn [read_chars]. unfold byte, is_lead.
  destruct (Z.eqb_spec (Z.of_nat (nat_of_ascii c)) 0) as [E|_]; [lia|].
  destruct (Nat.leb_spec 192 (nat_of_ascii c)) as [Hl|_]; [lia|].
  f_equal. apply IH, Hs.
Qed.

(** C10, as amended: [search_expenses] matches the pattern made of the
    keyword as given between two [%], with no escaping, against note,
    category and subcategory, so a [%] inside the keyword stands for any
    run of characters and a [_] for any one character, neither for
    itself.  For a keyword of at most 49998 bytes the result is the list
    of the records, latest date first, of exactly the rows with a field
    that is not NULL and matches; a NUL byte ends the keyword, and the
    pattern, where it stands.  The keyword ["%"] returns every row of the
    table, whatever its text fields hold.  A longer keyword makes the
    pattern too long for [LIKE]: on a table with a row the result is a
    status "error" dict, not a list.  Characters are read as [LIKE] reads
    them; the bytes 1 to 127 are characters by themselves. *)
Theorem search_expenses_wildcards (d : db) :
  let record (r : expense) : dict :=
    [ ("id", JInt (row_id r));
      ("date", JStr (row_date r));
      ("amount", JReal (row_amount r));
      ("category", JStr (row_category r));
      ("subcategory",
       match row_subcategory r with Some s => JStr s | None => JNull end);
      ("note", match row_note r with Some s => JStr s | None => JNull end) ] in
  (forall keyword,
     (Z.of_nat (String.length keyword) <= 49998)%Z ->
     let pattern :=
       (37%Z :: text_chars keyword ++
        (if nul_free keyword then [37%Z] else []))%list in
     exists (rows : list expense) (keep : expense -> bool),
       Remote.search_expenses keyword d = Remote.Records (map record rows)
       /\ Permutation rows (filter keep (expenses d))
       /\ (forall r, keep r = true <->
             exists text, In (Some text) (text_fields r)
                          /\ wildcard_match pattern (text_chars text))
       /\ StronglySorted
            (fun a b => String.leb (row_date b) (row_date a) = true) rows)
  /\
  (exists rows,
     Remote.search_expenses "%" d = Remote.Records (map record rows)
     /\ Permutation rows (expenses d))
  /\
  (forall keyword,
     (49998 < Z.of_nat (String.length keyword))%Z -> expenses d <> [] ->
     Remote.search_expenses keyword d =
       Remote.Failure
         [("status", JStr "error");
          ("message", JStr "LIKE or GLOB pattern too complex")])
  /\
  (forall s,
     forallb (fun c => (0 <? Z.of_nat (nat_of_ascii c))%Z
                       && (Z.of_nat (nat_of_ascii c) <? 128)%Z)
       (list_ascii_of_string s) = true ->
     text_chars s =
       map (fun c => Z.of_nat (nat_of_ascii c)) (list_ascii_of_string s)).
Proof.
  intros record. split; [|split; [|split]].
  - intros keyword Hshort pattern.
    exists (order_by Sqlite.date_desc
              (filter (any_field ("%" ++ keyword ++ "%")) (expenses d))),
           (any_field ("%" ++ keyword ++ "%")).
    split; [exact (search_expenses_short keyword d Hshort)|].
    split; [apply order_by_perm|]. split.
    + intros r. rewrite any_field_spec.
      split; intros [text [Hin H]]; exists text; (split; [exact Hin|]).
      * apply like_chars_spec. unfold like_match in H.
        rewrite text_chars_pattern in H. exact H.
      * unfold like_match. rewrite text_chars_pattern.
        apply like_chars_spec, H.
    + apply (order_by_sorted Sqlite.date_desc);
        [apply date_desc_total | apply date_desc_trans].
  - exists (order_by Sqlite.date_desc (expenses d)).
    split; [|apply order_by_perm].
    rewrite (search_expenses_short "%" d) by (cbn; lia).
    rewrite filter_all; [reflexivity|].
    intros r _. apply any_field_spec. exists (row_category r).
    split; [right; left; reflexivity|].
    unfold like_match.
    change (text_chars ("%" ++ "%" ++ "%")) with [37%Z; 37%Z; 37%Z].
    apply (like_chars_after _ []). apply (like_chars_after _ []).
    apply like_chars_any.
  - intros keyword Hlong Hrows.
    rewrite (search_expenses_long keyword d Hlong).
    destruct (expenses d); [contradiction | reflexivity].
  - exact text_chars_ascii.
Qed.

Lemma search_expenses_wildcards_witness :
  (exists rows,
     Remote.search_expenses "l%h" ledger = Remote.Records (map expense_dict rows)
     /\ In lunch rows /\ ~ In bus rows /\ ~ In dinner rows)
  /\ text_chars "l%h" = [108%Z; 37%Z; 104%Z].
Proof.
  destruct (search_expenses_wildcards ledger) as [Hshort [_ [_ Hascii]]].
  split; [|apply Hascii; reflexivity].
  destruct (Hshort "l%h") as [rows [keep [Hres [Hperm [Hkeep _]]]]];
    [cbn; lia|].
  assert (Hin : forall r, In r rows <-> In r (expenses ledger) /\ keep r = true).
  { intros r. rewrite <- filter_In. split; apply Permutation_in;
      [exact Hperm | apply Permutation_sym, Hperm]. }
  assert (Hno : forall r,
    any_field "%l%h%" r = false -> ~ In r rows).
  { intros r Hr H. apply Hin in H. destruct H as [_ H].
    apply Hkeep in H. destruct H as [text [Hf H]].
    apply like_chars_spec in H.
    assert (Hany : any_field "%l%h%" r = true).
    { apply any_field_spec. exists text. split; [exact Hf | exact H]. }
    rewrite Hr in Hany. discriminate Hany. }
  exists rows. split; [exact Hres|]. split; [|split].
  - apply Hin. split; [left; reflexivity|]. apply Hkeep.
    exists "lunch". split; [left; reflexivity|].
    apply like_chars_spec. reflexivity.
  - apply Hno. reflexivity.
  - apply Hno. reflexivity.
Defined.

(** C10, as stated, fails for some keywords that hold a wildcard.
    In ["%" ++ NUL ++ "_zz"] the [_] is neither a wildcard nor a character
    to be found: the pattern ends at the NUL byte and every row is
    returned.  And a keyword of 49999 bytes that begins with [%] returns
    no rows at all but a status "error" dict. *)
Lemma search_expenses_wildcards_counterexample :
  text_chars ("%" ++ ("%" ++ String "000" "_zz") ++ "%") = [37%Z; 37%Z]
  /\ Remote.search_expenses ("%" ++ String "000" "_zz") ledger =
       Remote.Records [expense_dict dinner; expense_dict bus; expense_dict lunch]
  /\ Z.of_nat
       (String.length
          (String "%" (string_of_list_ascii (repeat "a"%char (Z.to_nat 49998)))))
     = 49999%Z
  /\ Remote.search_expenses
       (String "%" (string_of_list_ascii (repeat "a"%char (Z.to_nat 49998)))) ledger =
       Remote.Failure
         [("status", JStr "error");
          ("message", JStr "LIKE or GLOB pattern too complex")].
Proof.
  refine (conj _ (conj _ (conj _ _))); vm_compute; reflexivity.
Qed.

Example search_underscore_is_not_literal :
  Remote.search_expenses "L_N" ledger = Remote.Records [expense_dict lunch]
  /\ Remote.search_expenses "b_s" ledger = Remote.Records [expense_dict bus]
  /\ Remote.search_expenses "%" ledger =
       Remote.Records
         [expense_dict dinner; expense_dict bus; expense_dict lunch].
Proof. repeat split; reflexivity. Qed.

(** ** The table invariants hold in every reachable database *)

Lemma NoDup_ids_filter (f : expense -> bool) (rows : list expense) :
  NoDup (map row_id rows) -> NoDup (map row_id (filter f rows)).
Proof.
  induction rows as [|r rows IH]; simpl; intros H; [constructor|].
  apply NoDup_cons_iff in H. destruct H as [Hr H].
  destruct (f r); simpl; [|apply IH, H].
  constructor; [|apply IH, H].
  intros Hin. apply Hr. apply in_map_iff in Hin.
  destruct Hin as [x [E Hx]]. apply filter_In in Hx.
  rewrite <- E. apply in_map, Hx.
Qed.

Lemma insert_unique_ids (date : option string) (amount : option float)
    (category subcategory note : option string) (d : db) :
  unique_ids d ->
  unique_ids (snd (Sqlite.insert date amount category subcategory note d)).
Proof.
  intros Hu.
  destruct (insert_cases date amount category subcategory note d)
    as [[e ->]|[date' [amount' [category' [_ [_ [_ [_ ->]]]]]]]];
    [exact Hu|].
  unfold unique_ids. cbn [snd expenses]. rewrite map_app. cbn [map row_id].
  apply NoDup_app; [exact Hu | constructor; [intros [] | constructor] |].
  intros i Hi [<-|[]]. apply in_map_iff in Hi. destruct Hi as [r [E Hr]].
  pose proof (largest_rowid_bound _ _ Hr). lia.
Qed.

Lemma delete_unique_ids (X : Z) (d : db) :
  unique_ids d -> unique_ids (snd (Sqlite.delete X d)).
Proof.
  intros Hu. unfold Sqlite.delete.
  destruct (negb (Sqlite.int64 X)); [exact Hu|].
  apply NoDup_ids_filter, Hu.
Qed.

Lemma Base_step_unique_ids (c : Base.call) (d : db) :
  unique_ids d -> unique_ids (snd (Base.step c d)).
Proof.
  intros Hu.
  destruct c as [date amount category subcategory note
                |X date amount category subcategory note|X]; cbn [Base.step].
  - pose proof (insert_unique_ids date amount category subcategory note d Hu)
      as H.
    unfold Base.add_expense.
    destruct (Sqlite.insert date amount category subcategory note d)
      as [[i|e] d']; exact H.
  - destruct (Base_edit_advances X date amount category subcategory note d)
      as [_ [->|[fields ->]]]; [exact Hu|].
    unfold unique_ids. rewrite (proj1 (update_ids fields X d)). exact Hu.
  - pose proof (delete_unique_ids X d Hu) as H. unfold Base.delete_expense.
    destruct (Sqlite.delete X d) as [[n|e] d']; exact H.
Qed.

Lemma Remote_step_unique_ids (c : Remote.call) (d : db) :
  unique_ids d -> unique_ids (snd (Remote.step c d)).
Proof.
  intros Hu.
  destruct c as [date amount category subcategory note
                |X date amount category subcategory note|X]; cbn [Remote.step].
  - pose proof (insert_unique_ids date amount category subcategory note d Hu)
      as H.
    unfold Remote.add_expense.
    destruct (Sqlite.insert date amount category subcategory note d)
      as [[i|e] d']; exact H.
  - destruct (Remote_edit_advances X date amount category subcategory note d)
      as [_ [->|[fields ->]]]; [exact Hu|].
    unfold unique_ids. rewrite (proj1 (update_ids fields X d)). exact Hu.
  - pose proof (delete_unique_ids X d Hu) as H. unfold Remote.delete_expense.
    destruct (Sqlite.delete X d) as [[n|e] d']; exact H.
Qed.

Lemma run_invariant {C R : Type} (step : C -> db -> R * db) (P : db -> Prop) :
  (forall c d, P d -> P (snd (step c d))) ->
  forall calls d, P d -> P (snd (run step calls d)).
Proof.
  intros Hstep. induction calls as [|c calls IH]; intros d Hd; [exact Hd|].
  cbn [run]. specialize (Hstep c d Hd).
  destruct (step c d) as [reply d1]. specialize (IH d1 Hstep).
  destruct (run step calls d1) as [replies d2]. exact IH.
Qed.

(** Starting from the empty table, whatever is called, ids stay unique and
    the counter stays ahead of every stored id. *)
Lemma reachable_invariants :
  (forall calls,
     unique_ids (snd (run Base.step calls init_db))
     /\ sequence_tracks (snd (run Base.step calls init_db)))
  /\
  (forall calls,
     unique_ids (snd (run Remote.step calls init_db))
     /\ sequence_tracks (snd (run Remote.step calls init_db))).
Proof.
  assert (Hu : unique_ids init_db) by constructor.
  assert (Ht : sequence_tracks init_db) by (intros r []).
  split; intros calls; split.
  - apply run_invariant; [apply Base_step_unique_ids | exact Hu].
  - apply run_invariant; [|exact Ht].
    intros c d. apply (Base_step_advances c d).
  - apply run_invariant; [apply Remote_step_unique_ids | exact Hu].
  - apply run_invariant; [|exact Ht].
    intros c d. apply (Remote_step_advances c d).
Qed.

(** * Further properties *)

(** ** Listings after a write *)

Section OrderByFilter.
Context {A : Type}.
Variable leb : A -> A -> bool.
Variable f : A -> bool.
Hypothesis leb_total : forall a b, leb a b = true \/ leb b a = true.
Hypothesis leb_trans :
  forall a b c, leb a b = true -> leb b c = true -> leb a c = true.

Lemma insert_sorted_head (x : A) (l : list A) :
  (forall y, In y l -> leb x y = true) -> insert_sorted leb x l = x :: l.
Proof.
  destruct l as [|y l]; intros H; [reflexivity|].
  simpl. rewrite (H y (or_introl eq_refl)). reflexivity.
Qed.

Lemma filter_insert_sorted (x : A) (l : list A) :
  StronglySorted (fun a b => leb a b = true) l ->
  filter f (insert_sorted leb x l) =
    if f x then insert_sorted leb x (filter f l) else filter f l.
Proof.
  induction 1 as [|y l Hl IH Hy].
  - simpl. destruct (f x); reflexivity.
  - cbn [insert_sorted]. destruct (leb x y) eqn:Hxy.
    + cbn [filter]. destruct (f x); [|reflexivity].
      symmetry. apply (insert_sorted_head x (filter f (y :: l))).
      intros z Hz. apply filter_In in Hz. destruct Hz as [[<-|Hz] _].
      * exact Hxy.
      * rewrite Forall_forall in Hy. apply leb_trans with y; auto.
    + cbn [filter]. rewrite IH. destruct (f y), (f x); try reflexivity.
      cbn [insert_sorted]. rewrite Hxy. reflexivity.
Qed.

(** Sorting and then dropping rows is dropping them and then sorting. *)
Lemma filter_order_by (l : list A) :
  filter f (order_by leb l) = order_by leb (filter f l).
Proof.
  induction l as [|x l IH]; [reflexivity|].
  cbn [order_by filter].
  rewrite filter_insert_sorted by (apply order_by_sorted; assumption).
  rewrite IH. destruct (f x); reflexivity.
Qed.
End OrderByFilter.

Lemma filter_map_swap {A B : Type} (g : A -> B) (f : B -> bool) (l : list A) :
  filter f (map g l) = map g (filter (fun a => f (g a)) l).
Proof.
  induction l as [|a l IH]; simpl; [reflexivity|].
  rewrite IH. destruct (f (g a)); reflexivity.
Qed.

Lemma filter_swap {A : Type} (f g : A -> bool) (l : list A) :
  filter f (filter g l) = filter g (filter f l).
Proof.
  rewrite !filter_twice. apply filter_ext. intros a. apply andb_comm.
Qed.

(** X1: in both variants, what [list_expenses] returns after
    [delete_expense] is what it returned before without the entries of the
    deleted id, in the same order.  An id outside the 64 bits of an SQLite
    integer deletes nothing, and the listing is as before. *)
Theorem list_after_delete (X : Z) (start_date end_date : string) (d : db) :
  Base.list_expenses start_date end_date (snd (Base.delete_expense X d)) =
    (if (-9223372036854775808 <=? X)%Z && (X <=? 9223372036854775807)%Z
     then filter (fun entry => negb (has_id X entry))
            (Base.list_expenses start_date end_date d)
     else Base.list_expenses start_date end_date d)
  /\
  Remote.list_expenses start_date end_date (snd (Remote.delete_expense X d)) =
    (if (-9223372036854775808 <=? X)%Z && (X <=? 9223372036854775807)%Z
     then filter (fun entry => negb (has_id X entry))
            (Remote.list_expenses start_date end_date d)
     else Remote.list_expenses start_date end_date d).
Proof.
  unfold Base.delete_expense, Remote.delete_expense, Sqlite.delete.
  change ((-9223372036854775808 <=? X)%Z && (X <=? 9223372036854775807)%Z)
    with (Sqlite.int64 X).
  destruct (Sqlite.int64 X); cbn [negb snd]; [|split; reflexivity].
  split.
  - unfold Base.list_expenses. cbn [with_expenses expenses].
    rewrite filter_map_swap.
    rewrite (filter_order_by Sqlite.id_asc _ id_asc_total id_asc_trans).
    rewrite filter_swap. reflexivity.
  - unfold Remote.list_expenses. cbn [with_expenses expenses].
    rewrite filter_map_swap.
    rewrite (filter_order_by Sqlite.date_desc_id_desc _
               date_desc_id_desc_total date_desc_id_desc_trans).
    rewrite filter_swap. reflexivity.
Qed.





(** ** Ranges *)

Lemma between_false (start_date end_date : string) (r : expense) :
  String.leb start_date end_date = false ->
  Sqlite.between start_date end_date r = false.
Proof.
  intros H. unfold Sqlite.between.
  destruct (String.leb start_date (row_date r)) eqn:H1; [|reflexivity].
  destruct (String.leb (row_date r) end_date) eqn:H2; [|reflexivity].
  rewrite (string_leb_trans _ _ _ H1 H2) in H. discriminate.
Qed.

(** X3: a range whose start is after its end selects nothing: both
    variants of [list_expenses] and of [summarize] return the empty list,
    whatever the table holds and whatever category is passed. *)
Theorem inverted_range_is_empty (SUM : list float -> float)
    (start_date end_date : string) (category : option string) (d : db) :
  String.leb start_date end_date = false ->
  Base.list_expenses start_date end_date d = []
  /\ Remote.list_expenses start_date end_date d = []
  /\ Base.summarize SUM start_date end_date category d = []
  /\ Remote.summarize SUM start_date end_date category d = [].
Proof.
  intros H.
  assert (H1 : filter (Sqlite.between start_date end_date) (expenses d) = []).
  { apply filter_none. intros r _. apply between_false, H. }
  assert (H2 : forall clause : expense -> bool,
    filter (fun r => Sqlite.between start_date end_date r && clause r)
      (expenses d) = []).
  { intros clause. apply filter_none. intros r _.
    rewrite (between_false _ _ r H). reflexivity. }
  unfold Base.list_expenses, Remote.list_expenses, Base.summarize,
    Remote.summarize.
  rewrite H1, !H2. repeat split.
Qed.

Lemma inverted_range_is_empty_witness :
  Base.list_expenses "2024-12-31" "2024-01-01" ledger = []
  /\ Remote.summarize plain_sum "2024-12-31" "2024-01-01" None ledger = [].
Proof.
  destruct (inverted_range_is_empty plain_sum "2024-12-31" "2024-01-01" None
              ledger) as [HB [_ [_ HR]]]; [reflexivity|].
  split; [exact HB | exact HR].
Defined.

(** X4: the two variants of [list_expenses] return the same records, each
    as often as the other; only the order differs. *)
Theorem list_expenses_same_records (start_date end_date : string) (d : db) :
  Permutation (Base.list_expenses start_date end_date d)
    (Remote.list_expenses start_date end_date d).
Proof.
  unfold Base.list_expenses, Remote.list_expenses. apply Permutation_map.
  eapply Permutation_trans; [apply order_by_perm|].
  apply Permutation_sym, order_by_perm.
Qed.

(** ** Patches in general *)









(** ** Ids of successive creates *)






(** ** The table invariants along a session *)

(** X8: unique ids and a counter that covers every stored id are kept by
    every call of the writing tools, in both variants: if they hold in a
    database they hold after any session run on it. *)
Theorem invariants_preserved (d : db) :
  unique_ids d -> sequence_tracks d ->
  (forall calls,
     unique_ids (snd (run Base.step calls d))
     /\ sequence_tracks (snd (run Base.step calls d)))
  /\
  (forall calls,
     unique_ids (snd (run Remote.step calls d))
     /\ sequence_tracks (snd (run Remote.step calls d))).
Proof.
  intros Hu Ht. split; intros calls; split.
  - apply run_invariant; [apply Base_step_unique_ids | exact Hu].
  - apply run_invariant; [|exact Ht].
    intros c d0. apply (Base_step_advances c d0).
  - apply run_invariant; [apply Remote_step_unique_ids | exact Hu].
  - apply run_invariant; [|exact Ht].
    intros c d0. apply (Remote_step_advances c d0).
Qed.

Lemma invariants_preserved_witness :
  unique_ids
    (snd (run Remote.step
            [ Remote.DeleteExpense 2;
              Remote.AddExpense (Some "2024-06-01") (Some 9%float)
                (Some "Food") None None;
              Remote.EditExpense 3 None None (Some "Dining") None None ]
            ledger)).
Proof.
  assert (Hu : unique_ids ledger).
  { unfold unique_ids. simpl.
    repeat (constructor; [simpl; intuition discriminate|]). constructor. }
  assert (Ht : sequence_tracks ledger).
  { unfold sequence_tracks. simpl. intros r [<-|[<-|[<-|[]]]]; simpl; lia. }
  destruct (invariants_preserved ledger Hu Ht) as [_ HR].
  apply HR.
Defined.

(** ** Summaries and listings together *)

Lemma list_sum_cons (a : nat) (l : list nat) :
  list_sum (a :: l) = a + list_sum l.
Proof. reflexivity. Qed.

Lemma list_sum_perm (l l' : list nat) :
  Permutation l l' -> list_sum l = list_sum l'.
Proof. induction 1; rewrite ?list_sum_cons; lia. Qed.

Section GroupSizes.
Context {A K : Type}.
Variable K_eq_dec : forall a b : K, {a = b} + {a <> b}.
Variable key : A -> K.

Lemma indicator_sum (k0 : K) (ks : list K) :
  NoDup ks -> In k0 ks ->
  list_sum (map (fun k => if K_eq_dec k0 k then 1 else 0) ks) = 1.
Proof.
  induction 1 as [|k ks Hk Hks IH]; intros Hin; [contradiction|].
  cbn [map]. rewrite ?list_sum_cons. destruct (K_eq_dec k0 k) as [E|NE].
  - assert (H0 :
      list_sum (map (fun k' => if K_eq_dec k0 k' then 1 else 0) ks) = 0).
    { rewrite E. clear IH Hks Hin E.
      induction ks as [|x ks IH]; [reflexivity|].
      cbn [map]. rewrite ?list_sum_cons. destruct (K_eq_dec k x) as [E|_].
      - exfalso. apply Hk. left. symmetry. exact E.
      - rewrite IH; [reflexivity|]. intros H. apply Hk. right. exact H. }
    rewrite H0. reflexivity.
  - destruct Hin as [E|Hin]; [exfalso; apply NE; symmetry; exact E|].
    rewrite (IH Hin). reflexivity.
Qed.

(** Groups over keys that cover the rows hold each row once. *)
Lemma group_sizes (ks : list K) (rows : list A) :
  NoDup ks -> (forall r, In r rows -> In (key r) ks) ->
  list_sum (map (fun k => List.length (filter (key_is K_eq_dec key k) rows)) ks)
  = List.length rows.
Proof.
  intros Hks. induction rows as [|r rows IH]; intros Hcover.
  - cbn [filter List.length]. clear. induction ks as [|k ks IHk]; [reflexivity|].
    cbn [map]. rewrite list_sum_cons, IHk. reflexivity.
  - assert (Hsplit :
      list_sum (map (fun k => List.length
                       (filter (key_is K_eq_dec key k) (r :: rows))) ks)
      = list_sum (map (fun k => if K_eq_dec (key r) k then 1 else 0) ks)
        + list_sum (map (fun k => List.length
                           (filter (key_is K_eq_dec key k) rows)) ks)).
    { clear. induction ks as [|k ks IHk]; [reflexivity|].
      cbn [map]. rewrite !list_sum_cons, IHk. cbn [filter].
      unfold key_is at 1.
      destruct (K_eq_dec (key r) k); cbn [List.length]; lia. }
    rewrite Hsplit, indicator_sum, IH.
    + reflexivity.
    + intros x Hx. apply Hcover. right. exact Hx.
    + exact Hks.
    + apply Hcover. left. reflexivity.
Qed.

Lemma group_by_sizes (rows : list A) :
  list_sum (map (fun g => List.length (snd g)) (group_by K_eq_dec key rows))
  = List.length rows.
Proof.
  unfold group_by. rewrite map_map. cbn [snd].
  apply group_sizes.
  - apply NoDup_nodup.
  - intros r Hr. apply nodup_In, in_map, Hr.
Qed.
End GroupSizes.

Lemma total_count_sizes {K : Type} (entry : K * list expense -> dict)
    (gs : list (K * list expense)) :
  (forall g, count_of (entry g) = Z.of_nat (List.length (snd g))) ->
  total_count (map entry gs) =
    Z.of_nat (list_sum (map (fun g => List.length (snd g)) gs)).
Proof.
  intros H. induction gs as [|g gs IH]; [reflexivity|].
  cbn [map total_count fold_right]. rewrite list_sum_cons.
  fold (total_count (map entry gs)). rewrite IH, H. lia.
Qed.

(** X9: the counts of a summary add up to the number of rows summarised:
    in the extended variant the [count] fields of [summarize] sum to the
    number of stored rows in the range that pass the category filter, so
    that without a filter they sum to the length of [list_expenses] for the
    same range; and the [count] fields of [monthly_report] sum to the
    number of stored rows whose year is the one asked for. *)
Theorem counts_add_up (SUM : list float -> float)
    (strftime : string -> string -> option string)
    (start_date end_date : string) (category : option string)
    (year : Remote.year_arg) (d : db) :
  total_count (Remote.summarize SUM start_date end_date category d) =
    Z.of_nat
      (List.length
         (filter (selected start_date end_date (applied_filter category))
            (expenses d)))
  /\
  total_count (Remote.summarize SUM start_date end_date None d) =
    Z.of_nat (List.length (Remote.list_expenses start_date end_date d))
  /\
  total_count (Remote.monthly_report SUM strftime year d) =
    Z.of_nat
      (List.length
         (filter (fun r =>
                    match strftime "%Y" (row_date r) with
                    | Some y => String.eqb y (Remote.str year)
                    | None => false
                    end)
            (expenses d))).
Proof.
  assert (Hsum : forall category,
    total_count (Remote.summarize SUM start_date end_date category d) =
    Z.of_nat
      (List.length
         (filter (selected start_date end_date (applied_filter category))
            (expenses d)))).
  { intros cat. unfold Remote.summarize.
    rewrite (total_count_sizes (Remote.summary_dict SUM))
      by (intros g; reflexivity).
    rewrite (list_sum_perm _ _
               (Permutation_map _ (order_by_perm (Remote.total_desc SUM) _))).
    rewrite group_by_sizes. do 2 f_equal.
    apply filter_ext. intros r.
    change Remote.category_clause with Base.category_clause.
    apply category_clause_selected. }
  split; [apply Hsum|]. split.
  - rewrite Hsum. f_equal.
    unfold Remote.list_expenses. rewrite length_map.
    rewrite (Permutation_length (order_by_perm Sqlite.date_desc_id_desc _)).
    f_equal. apply filter_ext. intros r.
    unfold selected, applied_filter, Sqlite.between. apply andb_true_r.
  - unfold Remote.monthly_report.
    rewrite (total_count_sizes (Remote.month_dict SUM))
      by (intros g; reflexivity).
    rewrite (list_sum_perm _ _
               (Permutation_map _ (order_by_perm Remote.month_asc _))).
    rewrite group_by_sizes. reflexivity.
Qed.

(** ** Order and size of a summary *)

Lemma StronglySorted_strict {A K : Type} (key : A -> K) (R : A -> A -> Prop)
    (l : list A) :
  StronglySorted R l -> NoDup (map key l) ->
  StronglySorted (fun a b => R a b /\ key a <> key b) l.
Proof.
  induction 1 as [|x l Hl IH Hx]; intros Hnd; constructor.
  - apply IH. apply NoDup_cons_iff in Hnd. apply Hnd.
  - apply NoDup_cons_iff in Hnd. destruct Hnd as [Hnot _].
    rewrite Forall_forall in *. intros b Hb. split; [apply Hx, Hb|].
    intros E. apply Hnot. rewrite E. apply in_map, Hb.
Qed.

Lemma string_leb_lt (a b : string) :
  String.leb a b = true -> a <> b -> String.compare a b = Lt.
Proof.
  unfold String.leb. destruct (String.compare a b) eqn:H; intros Hle Hne.
  - exfalso. apply Hne, String.compare_eq_iff, H.
  - reflexivity.
  - discriminate.
Qed.

(** X10: the base [summarize] returns its entries in strictly ascending
    bytewise order of category, so the result is determined by the rows
    alone and no category appears twice. *)
Theorem summarize_ascending (SUM : list float -> float)
    (start_date end_date : string) (category : option string) (d : db) :
  exists groups,
    Base.summarize SUM start_date end_date category d =
      map (fun g =>
             [ ("category", JStr (fst g));
               ("total_amount", json_of_real (SUM (map row_amount (snd g)))) ])
        groups
    /\ StronglySorted (fun a b => String.compare (fst a) (fst b) = Lt) groups.
Proof.
  unfold Base.summarize.
  set (rows := filter _ (expenses d)).
  exists (order_by Base.category_asc (group_by string_dec row_category rows)).
  split; [reflexivity|].
  eapply StronglySorted_weaken;
    [|apply (StronglySorted_strict fst);
      [apply (order_by_sorted Base.category_asc)|]].
  - cbv beta. intros a b [Hle Hne]. apply string_leb_lt; assumption.
  - intros a b. apply String.leb_total.
  - intros a b c. apply string_leb_trans.
  - apply (order_by_groups Base.category_asc rows).
Qed.

Lemma nodup_constant {K : Type} (K_eq_dec : forall a b : K, {a = b} + {a <> b})
    (c : K) (l : list K) :
  (forall x, In x l -> x = c) -> l <> [] -> nodup K_eq_dec l = [c].
Proof.
  induction l as [|x l IH]; intros Hall Hne; [contradiction|].
  cbn [nodup]. destruct (in_dec K_eq_dec x l) as [Hin|Hnot].
  - apply IH.
    + intros y Hy. apply Hall. right. exact Hy.
    + intros E. rewrite E in Hin. exact Hin.
  - destruct l as [|y l].
    + cbn. rewrite (Hall x (or_introl eq_refl)). reflexivity.
    + exfalso. apply Hnot. left.
      rewrite (Hall x (or_introl eq_refl)).
      apply (Hall y). right. left. reflexivity.
Qed.

Lemma group_by_one_key {A K : Type}
    (K_eq_dec : forall a b : K, {a = b} + {a <> b}) (key : A -> K) (c : K)
    (rows : list A) :
  (forall r, In r rows -> key r = c) -> rows <> [] ->
  group_by K_eq_dec key rows = [(c, rows)].
Proof.
  intros Hall Hne. unfold group_by.
  rewrite (nodup_constant K_eq_dec c).
  - cbn [map]. rewrite filter_all; [reflexivity|].
    intros r Hr. unfold key_is.
    destruct (K_eq_dec (key r) c) as [_|N]; [reflexivity|].
    exfalso. apply N, Hall, Hr.
  - intros x Hx. apply in_map_iff in Hx. destruct Hx as [r [<- Hr]].
    apply Hall, Hr.
  - destruct rows; [contradiction | discriminate].
Qed.

(** X11: [summarize] called with a non-empty category returns at most one
    entry: none when no row of that category lies in the range, otherwise
    the one entry of that category with the sum (and, in the extended
    variant, the count) of exactly those rows. *)
Theorem summarize_one_category (SUM : list float -> float)
    (start_date end_date c : string) (d : db) :
  c <> "" ->
  let rows := filter (selected start_date end_date (Some c)) (expenses d) in
  Base.summarize SUM start_date end_date (Some c) d =
    match rows with
    | [] => []
    | _ :: _ =>
        [ [ ("category", JStr c);
            ("total_amount", json_of_real (SUM (map row_amount rows))) ] ]
    end
  /\
  Remote.summarize SUM start_date end_date (Some c) d =
    match rows with
    | [] => []
    | _ :: _ =>
        [ [ ("category", JStr c);
            ("total_amount", json_of_real (SUM (map row_amount rows)));
            ("count", JInt (Z.of_nat (List.length rows))) ] ]
    end.
Proof.
  intros Hc rows.
  assert (Hrows :
    filter (fun r => Sqlite.between start_date end_date r
                     && Base.category_clause (Some c) r) (expenses d) = rows).
  { apply filter_ext. intros r. rewrite category_clause_selected.
    unfold applied_filter. destruct (String.eqb_spec c ""); [contradiction|].
    reflexivity. }
  assert (Hkey : forall r, In r rows -> row_category r = c).
  { intros r Hr. apply filter_In in Hr. destruct Hr as [_ Hr].
    unfold selected in Hr. apply andb_true_iff in Hr.
    apply String.eqb_eq, Hr. }
  unfold Base.summarize, Remote.summarize.
  change Remote.category_clause with Base.category_clause.
  rewrite Hrows. destruct rows as [|r rows'] eqn:E; [split; reflexivity|].
  rewrite (group_by_one_key string_dec row_category c) by
    (try exact Hkey; discriminate).
  split; reflexivity.
Qed.

Lemma summarize_one_category_witness :
  Remote.summarize plain_sum "2024-01-01" "2024-12-31" (Some "Food") ledger =
    [ [ ("category", JStr "Food");
        ("total_amount", JReal 17.5%float); ("count", JInt 2) ] ]
  /\ Base.summarize plain_sum "2024-01-01" "2024-12-31" (Some "Rent") ledger
     = [].
Proof.
  split.
  - destruct (summarize_one_category plain_sum "2024-01-01" "2024-12-31"
                "Food" ledger) as [_ HR]; [discriminate|].
    exact HR.
  - destruct (summarize_one_category plain_sum "2024-01-01" "2024-12-31"
                "Rent" ledger) as [HB _]; [discriminate|].
    exact HB.
Defined.

(** ** Searching for plain text *)

(** For a keyword without wildcards and without NUL byte,
    [LIKE '%keyword%'] is containment up to ASCII case. *)
Lemma like_contains (keyword text : string) :
  plain keyword = true -> nul_free keyword = true ->
  like_match ("%" ++ keyword ++ "%") text = true <->
  contains_ci (text_chars keyword) (text_chars text).
Proof.
  intros Hk H0. unfold like_match, contains_ci.
  rewrite text_chars_pattern, H0. split.
  - intros H. apply like_chars_percent_inv in H.
    destruct H as [pre [t' [Ht H]]].
    apply (like_chars_plain_inv _ _ Hk) in H.
    destruct H as [found [post [-> [Hf _]]]].
    exists pre, found, post. split; assumption.
  - intros [pre [found [post [-> Hf]]]].
    apply like_chars_after.
    rewrite (like_chars_plain_ci _ _ Hk _ _ Hf). apply like_chars_any.
Qed.

(** X12: for a keyword of at most 49998 bytes that holds no [%], no [_]
    and no NUL byte, [search_expenses] returns the records, latest date
    first, of exactly the stored rows in which the note, the category or
    the subcategory is not NULL and contains the keyword as a run of
    characters, letters of ASCII compared without case.  A NULL note or
    subcategory never matches, and a row is returned once however many of
    its fields match. *)
Theorem search_plain_keyword (keyword : string) (d : db) :
  plain keyword = true -> nul_free keyword = true ->
  (Z.of_nat (String.length keyword) <= 49998)%Z ->
  let record (r : expense) : dict :=
    [ ("id", JInt (row_id r));
      ("date", JStr (row_date r));
      ("amount", JReal (row_amount r));
      ("category", JStr (row_category r));
      ("subcategory",
       match row_subcategory r with Some s => JStr s | None => JNull end);
      ("note", match row_note r with Some s => JStr s | None => JNull end) ] in
  exists (rows : list expense) (keep : expense -> bool),
    Remote.search_expenses keyword d = Remote.Records (map record rows)
    /\ Permutation rows (filter keep (expenses d))
    /\ (forall r, keep r = true <->
          exists text, In (Some text) (text_fields r)
                       /\ contains_ci (text_chars keyword) (text_chars text))
    /\ StronglySorted
         (fun a b => String.leb (row_date b) (row_date a) = true) rows.
Proof.
  intros Hk H0 Hshort record.
  exists (order_by Sqlite.date_desc
            (filter (any_field ("%" ++ keyword ++ "%")) (expenses d))),
         (any_field ("%" ++ keyword ++ "%")).
  split; [exact (search_expenses_short keyword d Hshort)|].
  split; [apply order_by_perm|]. split.
  - intros r. rewrite any_field_spec.
    split; intros [text [Hin H]]; exists text; (split; [exact Hin|]);
      apply (like_contains keyword text Hk H0); exact H.
  - apply (order_by_sorted Sqlite.date_desc);
      [apply date_desc_total | apply date_desc_trans].
Qed.

Lemma search_plain_keyword_witness :
  exists rows,
    Remote.search_expenses "FOOD" ledger = Remote.Records (map expense_dict rows)
    /\ In lunch rows /\ ~ In bus rows.
Proof.
  destruct (search_plain_keyword "FOOD" ledger eq_refl eq_refl)
    as [rows [keep [Hres [Hperm [Hkeep _]]]]]; [cbn; lia|].
  assert (Hin : forall r, In r rows <-> In r (expenses ledger) /\ keep r = true).
  { intros r. rewrite <- filter_In. split; apply Permutation_in;
      [exact Hperm | apply Permutation_sym, Hperm]. }
  exists rows. split; [exact Hres|]. split.
  - apply Hin. split; [left; reflexivity|]. apply Hkeep.
    exists "Food". split; [right; left; reflexivity|].
    exists [], [70%Z; 111%Z; 111%Z; 100%Z], []. split; [reflexivity|].
    unfold same_letter.
    change (text_chars "FOOD") with [70%Z; 79%Z; 79%Z; 68%Z].
    repeat constructor; lia.
  - intros Hbus. apply Hin in Hbus. destruct Hbus as [_ Hbus].
    apply Hkeep in Hbus. destruct Hbus as [text [Hf Hc]].
    apply (like_contains "FOOD" text eq_refl eq_refl) in Hc.
    destruct Hf as [E|[E|[E|[]]]]; try discriminate E;
      injection E as <-; vm_compute in Hc; discriminate Hc.
Defined.

(** X13: whatever the keyword, [search_expenses] returns either the
    records of stored rows, by date, latest first, or, for a keyword of
    more than 49998 bytes on a table that is not empty, a status "error"
    dict. *)
Theorem search_by_date (keyword : string) (d : db) :
  let record (r : expense) : dict :=
    [ ("id", JInt (row_id r));
      ("date", JStr (row_date r));
      ("amount", JReal (row_amount r));
      ("category", JStr (row_category r));
      ("subcategory",
       match row_subcategory r with Some s => JStr s | None => JNull end);
      ("note", match row_note r with Some s => JStr s | None => JNull end) ] in
  if (Z.of_nat (String.length keyword) <=? 49998)%Z
     || match expenses d with [] => true | _ :: _ => false end
  then
    exists rows,
      Remote.search_expenses keyword d = Remote.Records (map record rows)
      /\ (forall r, In r rows -> In r (expenses d))
      /\ StronglySorted
           (fun a b => String.leb (row_date b) (row_date a) = true) rows
  else
    Remote.search_expenses keyword d =
      Remote.Failure
        [("status", JStr "error");
         ("message", JStr "LIKE or GLOB pattern too complex")].
Proof.
  intros record.
  destruct (Z.leb_spec (Z.of_nat (String.length keyword)) 49998)
    as [Hshort|Hlong]; cbn [orb].
  - exists (order_by Sqlite.date_desc
              (filter (any_field ("%" ++ keyword ++ "%")) (expenses d))).
    split; [exact (search_expenses_short keyword d Hshort)|]. split.
    + intros r Hr. apply order_by_In, filter_In in Hr. apply Hr.
    + apply (order_by_sorted Sqlite.date_desc);
        [apply date_desc_total | apply date_desc_trans].
  - rewrite (search_expenses_long keyword d Hlong).
    destruct (expenses d) as [|r rows]; [|reflexivity].
    exists []. split; [reflexivity|]. split; [intros r []|constructor].
Qed.

(** ** The two summaries *)

(** X14: the two variants of [summarize] agree on categories and totals:
    the entries of the extended variant, once their [count] is dropped,
    are the entries of the base variant, each as often; only the order
    differs. *)
Theorem summarize_same_totals (SUM : list float -> float)
    (start_date end_date : string) (category : option string) (d : db) :
  Permutation (Base.summarize SUM start_date end_date category d)
    (map without_count
       (Remote.summarize SUM start_date end_date category d)).
Proof.
  unfold Base.summarize, Remote.summarize.
  change Remote.category_clause with Base.category_clause.
  set (gs := group_by string_dec row_category _).
  rewrite map_map.
  apply (Permutation_map (Base.summary_dict SUM)).
  eapply Permutation_trans; [apply order_by_perm|].
  apply Permutation_sym, order_by_perm.
Qed.
